(** * soylatte: a live-reloading markdown server (src/server.js)

    The source file holds two revisions of the server.  Revision 1 is
    lines 1-342, revision 2 (the later one: five watcher events, index
    preview, rewritten client predicate) is lines 343-681.  What the two
    revisions share textually is embedded once; what differs lives in
    [Module Rev1] and [Module Rev2].

    How the program is read:
    - strings are Rocq strings, and the methods the source calls on them
      are the functions of [Module JS];
    - the request handler runs against a snapshot of the disk and records
      every call that touches it;
    - a page is what [generateHtml] puts into its template, a listing is
      the list of its entries: the constant markup is left out;
    - the watcher callback returns the console lines and the [client.send]
      calls it makes;
    - the page's script is text of [generateHtml]'s template literal.
      [Rev1.onmessage] and [Rev2.onmessage] are the handlers as that text
      reads in server.js; [Rev1Page] and [Rev2Page] are the pages the
      browser gets: the cooked text of the literal, with the view
      identifier written into it, as far as it comes to run. *)

From Stdlib Require Import String Ascii List Bool Arith ZArith Lia.
Import ListNotations.
Open Scope string_scope.
Open Scope bool_scope.

(** ** JavaScript string primitives used by the source *)

Module JS.

(** [s.startsWith(p)] *)
Fixpoint startsWith (s p : string) {struct p} : bool :=
  match p with
  | EmptyString => true
  | String a p' =>
      match s with
      | EmptyString => false
      | String b s' => Ascii.eqb b a && startsWith s' p'
      end
  end.

(** [s.includes(sub)]: [sub] starts at some position of [s]. *)
Fixpoint includes (s sub : string) : bool :=
  startsWith s sub ||
  match s with
  | EmptyString => false
  | String _ s' => includes s' sub
  end.

(** [s.endsWith(suf)]: some suffix of [s] is [suf]. *)
Fixpoint endsWith (s suf : string) : bool :=
  String.eqb s suf ||
  match s with
  | EmptyString => false
  | String _ s' => endsWith s' suf
  end.

(** [s.substring(n)] *)
Fixpoint substring (n : nat) (s : string) : string :=
  match n, s with
  | O, _ => s
  | S _, EmptyString => EmptyString
  | S n', String _ s' => substring n' s'
  end.

(** [s.slice(0, -1)] *)
Fixpoint slice_0_m1 (s : string) : string :=
  match s with
  | EmptyString => EmptyString
  | String _ EmptyString => EmptyString
  | String c s' => String c (slice_0_m1 s')
  end.

(** [s.replace(/\/$/, '')]: the pattern has no flag, so [$] is the end of
    the input and at most one slash goes. *)
Definition replace_trailing_slash (s : string) : string :=
  if endsWith s "/" then slice_0_m1 s else s.

(** Truthiness of a string: only the empty string is falsy. *)
Definition truthy (s : string) : bool := negb (String.eqb s "").

(** [s.split(sep)] for a one-character separator, as every call of the
    source has it.  The empty string splits into one empty piece. *)
Fixpoint split (sep : ascii) (s : string) : list string :=
  match s with
  | EmptyString => [EmptyString]
  | String c s' =>
      if Ascii.eqb c sep then EmptyString :: split sep s'
      else match split sep s' with
           | [] => [String c EmptyString]
           | h :: t => String c h :: t
           end
  end.

(** [parts.join(sep)] *)
Fixpoint join (sep : string) (parts : list string) : string :=
  match parts with
  | [] => EmptyString
  | [x] => x
  | x :: rest => x ++ sep ++ join sep rest
  end.

(** [xs.slice(0, -1)] on arrays *)
Definition array_slice_0_m1 {A} (xs : list A) : list A := removelast xs.

(** [xs.slice(0, n)] on arrays *)
Definition array_slice_0 {A} (n : nat) (xs : list A) : list A := firstn n xs.

End JS.

(** ** JSON objects with string fields

    The only objects the source serialises are flat and hold strings.  An
    object is its list of properties in insertion order. *)

Module JSON.

Definition object := list (string * string).

(** Property read [data.k]; [None] is [undefined]. *)
Fixpoint get (k : string) (o : object) : option string :=
  match o with
  | [] => None
  | (k', v) :: o' => if String.eqb k' k then Some v else get k o'
  end.

Definition dquote : ascii := ascii_of_nat 34.
Definition backslash : ascii := ascii_of_nat 92.

Definition hex_digit (n : nat) : ascii :=
  if Nat.ltb n 10 then ascii_of_nat (48 + n) else ascii_of_nat (87 + n).

(** QuoteJSONString on one code unit. *)
Definition quote_char (c : ascii) : string :=
  let n := nat_of_ascii c in
  if Ascii.eqb c dquote then String backslash (String dquote EmptyString)
  else if Ascii.eqb c backslash then String backslash (String backslash EmptyString)
  else if Nat.eqb n 8 then String backslash "b"
  else if Nat.eqb n 9 then String backslash "t"
  else if Nat.eqb n 10 then String backslash "n"
  else if Nat.eqb n 12 then String backslash "f"
  else if Nat.eqb n 13 then String backslash "r"
  else if Nat.ltb n 32 then
    String backslash
      (String "u" (String "0" (String "0"
         (String (hex_digit (n / 16)) (String (hex_digit (n mod 16)) EmptyString)))))
  else String c EmptyString.

Fixpoint quote_body (s : string) : string :=
  match s with
  | EmptyString => EmptyString
  | String c s' => quote_char c ++ quote_body s'
  end.

Definition quote (s : string) : string :=
  String dquote (quote_body s) ++ String dquote EmptyString.

Definition property (kv : string * string) : string :=
  quote (fst kv) ++ ":" ++ quote (snd kv).

(** [JSON.stringify(o)] *)
Definition stringify (o : object) : string :=
  "{" ++ JS.join "," (map property o) ++ "}".

End JSON.

(** ** Node's [path] module

    The source calls [path.join], [path.relative], [path.basename] and reads
    [path.sep].  The handlers take the module as a value, so that what they
    do is stated for any host; [Posix] is the module of a POSIX host. *)

Record PathModule := {
  sep : ascii;
  path_join : string -> string -> string;
  path_relative : string -> string -> string;
  path_basename : string -> string
}.

(** [p.split(path.sep).join('/')] *)
Definition to_url_path (pm : PathModule) (p : string) : string :=
  JS.join "/" (JS.split (sep pm) p).

Module Posix.

Definition is_dotdot (s : string) : bool := String.eqb s "..".

(** [normalizeString]: empty and [.] pieces go, [..] removes the piece
    before it unless there is none or it is [..] itself; [res] is the
    result so far, last piece first. *)
Fixpoint normalize_pieces (allowAboveRoot : bool) (res : list string)
    (pieces : list string) : list string :=
  match pieces with
  | [] => rev res
  | p :: rest =>
      if String.eqb p "" || String.eqb p "." then
        normalize_pieces allowAboveRoot res rest
      else if is_dotdot p then
        match res with
        | last :: res' =>
            if is_dotdot last then
              normalize_pieces allowAboveRoot
                (if allowAboveRoot then p :: res else res) rest
            else normalize_pieces allowAboveRoot res' rest
        | [] =>
            normalize_pieces allowAboveRoot
              (if allowAboveRoot then [p] else []) rest
        end
      else normalize_pieces allowAboveRoot (p :: res) rest
  end.

(** [path.posix.normalize] *)
Definition normalize (p : string) : string :=
  if String.eqb p "" then "."
  else
    let isAbsolute := JS.startsWith p "/" in
    let trailingSeparator := JS.endsWith p "/" in
    let body :=
      JS.join "/" (normalize_pieces (negb isAbsolute) [] (JS.split "/" p)) in
    if String.eqb body "" then
      if isAbsolute then "/" else if trailingSeparator then "./" else "."
    else
      let body := if trailingSeparator then body ++ "/" else body in
      if isAbsolute then "/" ++ body else body.

(** [path.posix.join(a, b)] *)
Definition join (a b : string) : string :=
  if String.eqb a "" then
    if String.eqb b "" then "." else normalize b
  else if String.eqb b "" then normalize a
  else normalize (a ++ "/" ++ b).

(** The pieces of [path.posix.resolve(p)] for an absolute [p]. *)
Definition resolved_pieces (p : string) : list string :=
  normalize_pieces false [] (JS.split "/" p).

Fixpoint drop_common (xs ys : list string) : list string * list string :=
  match xs, ys with
  | x :: xs', y :: ys' =>
      if String.eqb x y then drop_common xs' ys' else (xs, ys)
  | _, _ => (xs, ys)
  end.

(** [path.posix.relative(from, to)] for absolute arguments, as the source
    passes them: one [..] for each piece of [from] below the common
    directory, then what is left of [to]. *)
Definition relative (from to : string) : string :=
  let '(f, t) := drop_common (resolved_pieces from) (resolved_pieces to) in
  JS.join "/" (map (fun _ => "..") f ++ t)%list.

(** [path.posix.basename(p)] *)
Definition basename (p : string) : string :=
  last (filter (fun s => negb (String.eqb s "")) (JS.split "/" p)) "".

Definition module : PathModule := {|
  sep := "/"%char;
  path_join := join;
  path_relative := relative;
  path_basename := basename
|}.

End Posix.

(** ** The host: file system, libraries, command line *)

Record Stats := { isDirectory : bool; isFile : bool }.

Record Dirent := { name : string; dirent_isDirectory : bool }.

(** A snapshot of the disk: what [fs.promises.stat] (with [None] for the
    rejected promise that [getStats] turns into [null]), [readdir] with
    [withFileTypes] and [readFile] answer. *)
Record FileSystem := {
  stat : string -> option Stats;
  readdir : string -> list Dirent;
  readFile : string -> string
}.

Record Host := {
  path : PathModule;
  fs : FileSystem;
  marked : string -> string;
  mime_lookup : string -> option string;
  DOCS_DIR : string
}.

(** Every call that touches the disk is recorded, in order. *)
Inductive FsOp :=
| OpStat (p : string)
| OpReaddir (p : string)
| OpReadFile (p : string)
| OpSendFile (p : string).

(** The handler's effects: a log of disk accesses threaded through. *)
Definition M (A : Type) : Type := list FsOp -> A * list FsOp.

Definition ret {A} (a : A) : M A := fun log => (a, log).

Definition bind {A B} (m : M A) (k : A -> M B) : M B :=
  fun log => let '(a, log') := m log in k a log'.

Definition access (op : FsOp) : M unit := fun log => (tt, (log ++ [op])%list).

Definition run {A} (m : M A) : A * list FsOp := m [].

Declare Scope fs_scope.
Delimit Scope fs_scope with fs.
Notation "x <- m ;; k" := (bind m (fun x => k))
  (at level 61, m at next level, right associativity) : fs_scope.
Notation "m ;;; k" := (bind m (fun _ => k))
  (at level 61, right associativity) : fs_scope.

(** ** Pages *)

Inductive Icon := IconParent | IconFolder | IconMarkdown.

(** One [<li>] of a listing: its icon, the link target and the link text. *)
Record ListItem := { icon : Icon; href : string; label : string }.

(** [content] of a page.  The markup around the values is constant text and
    is left out: a rendered document is [marked]'s output, a listing is its
    optional index preview (link target and rendered first lines), its
    heading and its entries. *)
Inductive Content :=
| Document (html : string)
| Listing (indexPreview : option (string * string)) (heading : string)
    (entries : list ListItem).

(** What [generateHtml] puts into its template.  [currentViewPath] is the
    text that lines 186 and 535 write, as it is, between the double quotes
    of [const currentViewPath = "..."].  Which string the script's constant
    then is, if the script still parses, is [Script.string_literal]
    below. *)
Record Page := {
  content : Content;
  title : string;
  backLink : string;
  currentViewPath : string
}.

Inductive Response :=
| Status (code : nat) (body : string)
| Send (page : Page)
| SendFile (filePath : string)
| NoResponse.

(** server.js lines 100-116 and 428-444 *)
Definition generateHtml_backLink (currentPath : string) : string :=
  if JS.truthy currentPath && negb (String.eqb currentPath ".")
     && negb (String.eqb currentPath "/") then
    let cleanPath :=
      if JS.endsWith currentPath "/" then JS.slice_0_m1 currentPath
      else currentPath in
    let parts := JS.split "/" cleanPath in
    if Nat.ltb 1 (List.length parts) then
      "/" ++ JS.join "/" (JS.array_slice_0_m1 parts) ++ "/"
    else "/"
  else "".

(** server.js lines 100-252 and 428-571 *)
Definition generateHtml (content : Content) (title currentPath : string) : Page :=
  {| content := content;
     title := title;
     backLink := generateHtml_backLink currentPath;
     currentViewPath := currentPath |}.

(** ** The request handler, as far as both revisions have the same text *)

Section Handler.

Variable h : Host.

Local Open Scope fs_scope.

(** server.js lines 91-97 and 419-425 *)
Definition getStats (filePath : string) : M (option Stats) :=
  access (OpStat filePath) ;;; ret (stat (fs h) filePath).

Definition fs_readdir (dir : string) : M (list Dirent) :=
  access (OpReaddir dir) ;;; ret (readdir (fs h) dir).

Definition fs_readFile (filePath : string) : M string :=
  access (OpReadFile filePath) ;;; ret (readFile (fs h) filePath).

Definition res_sendFile (filePath : string) : M Response :=
  access (OpSendFile filePath) ;;; ret (SendFile filePath).

Definition relative_url (filePath : string) : string :=
  to_url_path (path h) (path_relative (path h) (DOCS_DIR h) filePath).

(** server.js lines 276-284 and 595-603: the [.md] fallback. *)
Definition md_fallback (filePath : string) (stats : option Stats)
    : M (string * option Stats) :=
  match stats with
  | None =>
      if negb (JS.endsWith filePath ".md") then
        let mdPath := filePath ++ ".md" in
        mdStats <- getStats mdPath ;;
        match mdStats with
        | Some _ => ret (mdPath, mdStats)
        | None => ret (filePath, stats)
        end
      else ret (filePath, stats)
  | Some _ => ret (filePath, stats)
  end.

(** server.js lines 318-336 and 658-676 *)
Definition serve_file (filePath : string) : M Response :=
  if JS.endsWith filePath ".md" then
    content <- fs_readFile filePath ;;
    let html := marked h content in
    let relativePathStr := relative_url filePath in
    ret (Send (generateHtml (Document html)
                 (path_basename (path h) filePath) relativePathStr))
  else
    match mime_lookup h filePath with
    | Some mimeType =>
        if JS.truthy mimeType && JS.startsWith mimeType "image/" then
          res_sendFile filePath
        else ret (Status 403 "Only markdown files and images are served.")
    | None => ret (Status 403 "Only markdown files and images are served.")
    end.

(** The entries loop, server.js lines 300-310 and 637-646. *)
Fixpoint list_entries (files : list Dirent) : list ListItem :=
  match files with
  | [] => []
  | file :: rest =>
      let isDir := dirent_isDirectory file in
      if negb isDir && negb (JS.endsWith (name file) ".md") then
        list_entries rest
      else
        let icon := if isDir then IconFolder else IconMarkdown in
        let suffix := if isDir then "/" else "" in
        let href := name file ++ suffix in
        {| icon := icon; href := href; label := name file |}
        :: list_entries rest
  end.

Definition parent_entry (requestPath : string) : list ListItem :=
  if negb (String.eqb requestPath "/") then
    [{| icon := IconParent; href := ".."; label := ".." |}]
  else [].

(** server.js lines 286-336 and 605-676: the answer once [filePath] and
    [stats] are settled.  The directory branch, where the revisions differ,
    is [list_directory requestPath filePath]. *)
Definition respond (list_directory : string -> string -> M Response)
    (requestPath filePath : string) (stats : option Stats) : M Response :=
  match stats with
  | None => ret (Status 404 "Not Found")
  | Some stats =>
      if isDirectory stats then list_directory requestPath filePath
      else if isFile stats then serve_file filePath
      else ret NoResponse
  end.

(** server.js lines 264-337 and 583-677.  [requestPath] is
    [decodeURIComponent(req.path)]. *)
Definition app_get (list_directory : string -> string -> M Response)
    (requestPath : string) : M Response :=
  if JS.includes requestPath ".." then ret (Status 403 "Forbidden")
  else
    let filePath := path_join (path h) (DOCS_DIR h) requestPath in
    stats <- getStats filePath ;;
    resolved <- md_fallback filePath stats ;;
    respond list_directory requestPath (fst resolved) (snd resolved).

End Handler.

(** ** The watcher callback and the broadcast *)

Inductive ReadyState := CONNECTING | OPEN | CLOSING | CLOSED.

Definition ReadyState_eqb (a b : ReadyState) : bool :=
  match a, b with
  | CONNECTING, CONNECTING | OPEN, OPEN | CLOSING, CLOSING | CLOSED, CLOSED => true
  | _, _ => false
  end.

(** A member of [wss.clients]. *)
Record Client := { client_id : nat; readyState : ReadyState }.

(** What one run of the callback does: lines on the console and
    [client.send] calls, in order. *)
Record Effects := {
  console : list string;
  sent : list (nat * string)
}.

Definition nothing : Effects := {| console := []; sent := [] |}.

(** The object literal of server.js lines 84 and 412. *)
Definition update_message (relativePath event : string) : JSON.object :=
  [("type", "update"); ("path", relativePath); ("event", event)].

(** [wss.clients.forEach], server.js lines 82-86 and 410-414. *)
Fixpoint notify_clients (clients : list Client) (relativePath event : string)
    : list (nat * string) :=
  match clients with
  | [] => []
  | client :: rest =>
      if ReadyState_eqb (readyState client) OPEN then
        (client_id client,
         JSON.stringify (update_message relativePath event))
        :: notify_clients rest relativePath event
      else notify_clients rest relativePath event
  end.

(** The body of the [if], server.js lines 77-86 and 405-414. *)
Definition notify (h : Host) (clients : list Client) (event filePath : string)
    : Effects :=
  let relativePath := to_url_path (path h) (path_relative (path h) (DOCS_DIR h) filePath) in
  {| console := ["File event " ++ event ++ ": " ++ relativePath];
     sent := notify_clients clients relativePath event |}.

(** The kinds of change of the specification and the names chokidar gives
    them in its [all] event. *)
Inductive ChangeKind :=
| created | modified | removed | directory_created | directory_removed.

Definition chokidar_event (k : ChangeKind) : string :=
  match k with
  | created => "add"
  | modified => "change"
  | removed => "unlink"
  | directory_created => "addDir"
  | directory_removed => "unlinkDir"
  end.

(** ** Revision 1 *)

Module Rev1.

(** server.js lines 74-88 *)
Definition on_all (h : Host) (clients : list Client) (event filePath : string)
    : Effects :=
  if String.eqb event "change" || String.eqb event "add"
     || String.eqb event "unlink" then
    notify h clients event filePath
  else nothing.

(** server.js lines 188-244, for the value [currentViewPath] of the
    script's constant.  [true] is [window.location.reload()].  A message
    without [path] raises on [data.path.includes]: no reload.  The text of
    these lines has no backslash, so the browser gets it as it stands
    ([Rev1Page] below). *)
Definition onmessage (currentViewPath : string) (data : JSON.object) : bool :=
  if match JSON.get "type" data with
     | Some t => String.eqb t "update"
     | None => false
     end
  then
    match JSON.get "path" data with
    | None => false
    | Some data_path =>
        if String.eqb data_path currentViewPath then true
        else if String.eqb currentViewPath "" then
          if negb (JS.includes data_path "/") then true else false
        else
          let prefix := currentViewPath ++ "/" in
          if JS.startsWith data_path prefix then
            let remaining := JS.substring (String.length prefix) data_path in
            if negb (JS.includes remaining "/") then true else false
          else false
    end
  else false.

(** The decision as a function of the view identifier and the changed
    path: the page built for [V] receives the message built for [C]. *)
Definition viewMatch (V C : string) : bool :=
  onmessage V (update_message C "change").

Local Open Scope fs_scope.

(** server.js lines 290-316 *)
Definition list_directory (h : Host) (requestPath filePath : string)
    : M Response :=
  files <- fs_readdir h filePath ;;
  let listHtml :=
    Listing None ("Index of " ++ requestPath)
      (parent_entry requestPath ++ list_entries files)%list in
  let relativeDir := relative_url h filePath in
  ret (Send (generateHtml listHtml ("Index of " ++ requestPath) relativeDir)).

(** server.js lines 264-337 *)
Definition handler (h : Host) (requestPath : string) : M Response :=
  app_get h (list_directory h) requestPath.

End Rev1.

(** ** Revision 2 *)

Module Rev2.

(** server.js lines 395-416 *)
Definition on_all (h : Host) (clients : list Client) (event filePath : string)
    : Effects :=
  if String.eqb event "change" || String.eqb event "add"
     || String.eqb event "unlink" || String.eqb event "addDir"
     || String.eqb event "unlinkDir" then
    notify h clients event filePath
  else nothing.

(** server.js lines 537-563, read as the JavaScript that stands in the
    source file: the handler the revision writes down.  It is not what the
    page runs.  The lines are text of a template literal, where the [\/] of
    line 543 is cooked to [/], and they follow the [<style>] of line 513,
    which is never closed: [Rev2Page] below is the page the browser gets.
    What this definition decides is an upper bound of what that page does:
    where it says no reload, the page does not reload. *)
Definition onmessage (currentViewPath : string) (data : JSON.object) : bool :=
  let current := JS.replace_trailing_slash currentViewPath in
  if negb match JSON.get "type" data with
          | Some t => String.eqb t "update"
          | None => false
          end
  then false
  else
    match JSON.get "path" data with
    | None => false
    | Some data_path =>
        if String.eqb data_path current then true
        else if negb (JS.includes current ".md") then
          let prefix := if JS.truthy current then current ++ "/" else "" in
          if JS.startsWith data_path prefix then true else false
        else false
    end.

Definition viewMatch (V C : string) : bool :=
  onmessage V (update_message C "change").

(** The test of line 554 read positively: the handler takes its view for a
    rendered markdown file when the identifier contains [.md]. *)
Definition markdown_view (currentViewPath : string) : bool :=
  JS.includes (JS.replace_trailing_slash currentViewPath) ".md".

Local Open Scope fs_scope.

Definition newline : ascii := ascii_of_nat 10.

(** server.js lines 612-629 *)
Definition index_preview (h : Host) (filePath : string)
    : M (option (string * string)) :=
  let indexPath := path_join (path h) filePath "index.md" in
  indexStats <- getStats h indexPath ;;
  match indexStats with
  | Some st =>
      if isFile st then
        raw <- fs_readFile h indexPath ;;
        let firstLines :=
          JS.join (String newline "")
            (JS.array_slice_0 10 (JS.split newline raw)) in
        let relativeIndexPath := relative_url h indexPath in
        ret (Some ("/" ++ relativeIndexPath, marked h firstLines))
      else ret None
  | None => ret None
  end.

(** server.js lines 609-656 *)
Definition list_directory (h : Host) (requestPath filePath : string)
    : M Response :=
  files <- fs_readdir h filePath ;;
  indexPreview <- index_preview h filePath ;;
  let listHtml :=
    Listing indexPreview ("Index of " ++ requestPath)
      (parent_entry requestPath ++ list_entries files)%list in
  let relativeDir := relative_url h filePath in
  ret (Send (generateHtml listHtml ("Index of " ++ requestPath) relativeDir)).

(** server.js lines 583-677 *)
Definition handler (h : Host) (requestPath : string) : M Response :=
  app_get h (list_directory h) requestPath.

End Rev2.

(** ** Notions of the specification *)

(** A request path has a parent-directory segment when one of its pieces
    between slashes is [..]. *)
Definition has_parent_segment (requestPath : string) : Prop :=
  In ".." (JS.split "/" requestPath).

(** The message of the specification's section 4.4, with [kind] where the
    source has [type]. *)
Definition spec_update_message (event relativePath : string) : JSON.object :=
  [("kind", "update"); ("event", event); ("path", relativePath)].

Definition is_open (client : Client) : bool :=
  ReadyState_eqb (readyState client) OPEN.

(** A piece of a path that names a file or a directory: not empty, not
    [.] or [..], and without a slash. *)
Definition proper_piece (p : string) : Prop :=
  p <> "" /\ p <> "." /\ p <> ".." /\ ~ In "/"%char (list_ascii_of_string p).

(** The absolute POSIX path with the given pieces; [/] for none. *)
Definition absolute (pieces : list string) : string :=
  "/" ++ JS.join "/" pieces.

(** A piece that [normalizeString] keeps when it meets it. *)
Definition named (p : string) : bool :=
  negb (String.eqb p "" || String.eqb p ".").

(** [p] names the root or something under it: the pieces of the root and
    then proper pieces, with or without a final slash. *)
Definition below_root (root_pieces : list string) (p : string) : Prop :=
  exists qs,
    Forall proper_piece qs /\
    (p = absolute (root_pieces ++ qs) \/
     ((root_pieces ++ qs)%list <> [] /\ p = absolute (root_pieces ++ qs) ++ "/")).

Definition target (op : FsOp) : string :=
  match op with
  | OpStat p | OpReaddir p | OpReadFile p | OpSendFile p => p
  end.

Definition inside_root (root_pieces : list string) (op : FsOp) : Prop :=
  below_root root_pieces (target op).

(** A computation keeps a property of the access log and ends with a value
    that satisfies [Q]. *)
Definition preserves {A} (P : FsOp -> Prop) (Q : A -> Prop) (m : M A) : Prop :=
  forall log, Forall P log -> Q (fst (m log)) /\ Forall P (snd (m log)).

(** ** A small POSIX host for the scenarios of the specification *)

Module Example.

Definition directory : Stats := {| isDirectory := true; isFile := false |}.
Definition regular_file : Stats := {| isDirectory := false; isFile := true |}.

(** The served root [/srv/docs] holds [notes.md] and nothing else. *)
Definition disk : FileSystem := {|
  stat := fun p =>
    if String.eqb p "/srv/docs" || String.eqb p "/srv/docs/" then Some directory
    else if String.eqb p "/srv/docs/notes.md" then Some regular_file
    else None;
  readdir := fun p =>
    if String.eqb p "/srv/docs" || String.eqb p "/srv/docs/" then
      [ {| name := "notes.md"; dirent_isDirectory := false |} ]
    else [];
  readFile := fun p =>
    if String.eqb p "/srv/docs/notes.md" then "# Notes" else ""
|}.

(** [marked] is left symbolic: the host marks what it rendered. *)
Definition host : Host := {|
  path := Posix.module;
  fs := disk;
  marked := fun md => "<article>" ++ md ++ "</article>";
  mime_lookup := fun _ => None;
  DOCS_DIR := "/srv/docs"
|}.

(** The same root with [notes..md] and [a..b/f.md] in it. *)
Definition dotted_disk : FileSystem := {|
  stat := fun p =>
    if String.eqb p "/srv/docs" || String.eqb p "/srv/docs/"
       || String.eqb p "/srv/docs/a..b" then Some directory
    else if String.eqb p "/srv/docs/notes..md"
            || String.eqb p "/srv/docs/a..b/f.md" then Some regular_file
    else None;
  readdir := fun p =>
    if String.eqb p "/srv/docs" || String.eqb p "/srv/docs/" then
      [ {| name := "notes..md"; dirent_isDirectory := false |};
        {| name := "a..b"; dirent_isDirectory := true |} ]
    else if String.eqb p "/srv/docs/a..b" then
      [ {| name := "f.md"; dirent_isDirectory := false |} ]
    else [];
  readFile := fun p =>
    if String.eqb p "/srv/docs/notes..md" then "# Dots"
    else if String.eqb p "/srv/docs/a..b/f.md" then "# F"
    else ""
|}.

Definition dotted_host : Host := {|
  path := Posix.module;
  fs := dotted_disk;
  marked := fun md => "<article>" ++ md ++ "</article>";
  mime_lookup := fun _ => None;
  DOCS_DIR := "/srv/docs"
|}.

Definition clients : list Client :=
  [ {| client_id := 1; readyState := OPEN |};
    {| client_id := 2; readyState := CLOSING |};
    {| client_id := 3; readyState := OPEN |} ].

End Example.

(** ** The command line and the start (server.js lines 41-67 and 359-385) *)

(** What the start reads from the process: [parseInt(s, 10)] with [None]
    for [NaN] (the port is a Number; an integer is how far it is followed),
    [path.resolve] of one argument, [__dirname] and [fs.existsSync]. *)
Record Process := {
  parseInt : string -> option Z;
  path_resolve : string -> string;
  dirname : string;
  existsSync : string -> bool
}.

(** [portArg], [hostArg] and [dirArg]; [None] is [null] or [undefined]. *)
Record Options := {
  portArg : Z;
  hostArg : string;
  dirArg : option string
}.

Definition initial_options : Options :=
  {| portArg := 3000%Z; hostArg := "0.0.0.0"; dirArg := None |}.

(** [parseInt(v, 10) || 3000], where [v] is [args[++i]]: [undefined] past
    the end of the array, which [parseInt] reads as [NaN]. *)
Definition port_of (p : Process) (v : option string) : Z :=
  match v with
  | Some s =>
      match parseInt p s with
      | Some n => if Z.eqb n 0 then 3000%Z else n
      | None => 3000%Z
      end
  | None => 3000%Z
  end.

(** [v || '0.0.0.0'] *)
Definition host_of (v : option string) : string :=
  match v with
  | Some s => if JS.truthy s then s else "0.0.0.0"
  | None => "0.0.0.0"
  end.

(** Truthiness of [dirArg]. *)
Definition dir_given (d : option string) : bool :=
  match d with
  | Some s => JS.truthy s
  | None => false
  end.

Definition is_port_flag (arg : string) : bool :=
  String.eqb arg "-p" || String.eqb arg "--port".

Definition is_host_flag (arg : string) : bool :=
  String.eqb arg "-h" || String.eqb arg "--host".

Definition is_dir_flag (arg : string) : bool :=
  String.eqb arg "-d" || String.eqb arg "--dir".

(** The [for] loop of lines 47-58 and 365-376 from index [i] on, [args]
    being what is left of the array there.  A flag takes the next element
    with it ([args[++i]]). *)
Fixpoint parse_args (p : Process) (args : list string) (o : Options) : Options :=
  match args with
  | [] => o
  | arg :: rest =>
      if is_port_flag arg then
        match rest with
        | v :: rest' =>
            parse_args p rest'
              {| portArg := port_of p (Some v); hostArg := hostArg o; dirArg := dirArg o |}
        | [] =>
            {| portArg := port_of p None; hostArg := hostArg o; dirArg := dirArg o |}
        end
      else if is_host_flag arg then
        match rest with
        | v :: rest' =>
            parse_args p rest'
              {| portArg := portArg o; hostArg := host_of (Some v); dirArg := dirArg o |}
        | [] =>
            {| portArg := portArg o; hostArg := host_of None; dirArg := dirArg o |}
        end
      else if is_dir_flag arg then
        match rest with
        | v :: rest' =>
            parse_args p rest'
              {| portArg := portArg o; hostArg := hostArg o; dirArg := Some v |}
        | [] =>
            {| portArg := portArg o; hostArg := hostArg o; dirArg := None |}
        end
      else if negb (JS.startsWith arg "-") && negb (dir_given (dirArg o)) then
        parse_args p rest
          {| portArg := portArg o; hostArg := hostArg o; dirArg := Some arg |}
      else parse_args p rest o
  end.

(** [DOCS_DIR], lines 62 and 380. *)
Definition docs_dir (p : Process) (pm : PathModule) (o : Options) : string :=
  match dirArg o with
  | Some d => if JS.truthy d then path_resolve p d else path_join pm (dirname p) "docs"
  | None => path_join pm (dirname p) "docs"
  end.

(** How the start ends: [process.exit(1)] after a line on the standard
    error stream, or [server.listen(PORT, HOST)] over [DOCS_DIR]. *)
Inductive Start :=
| Exit (code : nat) (stderr : string)
| Listen (PORT : Z) (HOST : string) (DOCS_DIR : string).

(** server.js lines 41-71 and 339-342, 359-389 and 679-681; [args] is
    [process.argv.slice(2)]. *)
Definition start (p : Process) (pm : PathModule) (args : list string) : Start :=
  let o := parse_args p args initial_options in
  let PORT := portArg o in
  let HOST := hostArg o in
  let DOCS_DIR := docs_dir p pm o in
  if negb (existsSync p DOCS_DIR) then
    Exit 1 ("Error: Directory " ++ DOCS_DIR ++ " does not exist.")
  else Listen PORT HOST DOCS_DIR.

(** An argument the loop takes for a directory when none is set: it does
    not start with a dash. *)
Definition positional (arg : string) : bool := negb (JS.startsWith arg "-").

Definition is_flag (arg : string) : bool :=
  is_port_flag arg || is_host_flag arg || is_dir_flag arg.

Module ExampleStart.

Definition is_digit (c : ascii) : bool :=
  let n := nat_of_ascii c in Nat.leb 48 n && Nat.leb n 57.

(** The value of the leading decimal digits, [None] when there is none. *)
Fixpoint digits (acc : option Z) (s : string) : option Z :=
  match s with
  | EmptyString => acc
  | String c s' =>
      if is_digit c then
        let d := Z.of_nat (nat_of_ascii c - 48) in
        digits (Some (match acc with Some a => 10 * a + d | None => d end)%Z) s'
      else acc
  end.

(** [parseInt(s, 10)] on a string without leading white space: an optional
    sign and the digits that follow. *)
Definition parse_decimal (s : string) : option Z :=
  match s with
  | String "-" s' => option_map Z.opp (digits None s')
  | String "+" s' => digits None s'
  | _ => digits None s
  end.

(** A process started in [/app] on a disk that holds [/srv/docs] and
    [/app/docs]. *)
Definition process : Process := {|
  parseInt := parse_decimal;
  path_resolve := fun d => if JS.startsWith d "/" then Posix.normalize d
                           else Posix.normalize ("/app/" ++ d);
  dirname := "/app";
  existsSync := fun d => String.eqb d "/srv/docs" || String.eqb d "/app/docs"
|}.

End ExampleStart.

(** ** Readings of the handler used to state what it does *)

(** The test of lines 303 and 639, read positively. *)
Definition listed (file : Dirent) : bool :=
  dirent_isDirectory file || JS.endsWith (name file) ".md".

(** The entry the loop of lines 300-310 and 637-646 writes for [file]. *)
Definition entry_of (file : Dirent) : ListItem :=
  {| icon := if dirent_isDirectory file then IconFolder else IconMarkdown;
     href := name file ++ (if dirent_isDirectory file then "/" else "");
     label := name file |}.

(** Lines 273-284 and 592-603 as a function of the disk: the path the
    handler settles on and its stats, [None] when it answers 404. *)
Definition resolve (h : Host) (requestPath : string) : option (string * Stats) :=
  let filePath := path_join (path h) (DOCS_DIR h) requestPath in
  match stat (fs h) filePath with
  | Some stats => Some (filePath, stats)
  | None =>
      if JS.endsWith filePath ".md" then None
      else
        match stat (fs h) (filePath ++ ".md") with
        | Some mdStats => Some (filePath ++ ".md", mdStats)
        | None => None
        end
  end.

Module ExampleSite.

Definition nl : string := String (ascii_of_nat 10) "".

(** Twelve lines. *)
Definition index_md : string :=
  "# Guide" ++ nl ++ "2" ++ nl ++ "3" ++ nl ++ "4" ++ nl ++ "5" ++ nl ++ "6" ++ nl
  ++ "7" ++ nl ++ "8" ++ nl ++ "9" ++ nl ++ "10" ++ nl ++ "11" ++ nl ++ "12".

Definition special : Stats := {| isDirectory := false; isFile := false |}.

(** [/srv/docs] holds [logo.png], [data.txt], the socket [ctl] and the
    directory [guide] with [index.md] and [intro.md]. *)
Definition disk : FileSystem := {|
  stat := fun p =>
    if String.eqb p "/srv/docs" || String.eqb p "/srv/docs/"
       || String.eqb p "/srv/docs/guide" || String.eqb p "/srv/docs/guide/"
    then Some Example.directory
    else if String.eqb p "/srv/docs/logo.png" || String.eqb p "/srv/docs/data.txt"
            || String.eqb p "/srv/docs/guide/index.md"
            || String.eqb p "/srv/docs/guide/intro.md"
    then Some Example.regular_file
    else if String.eqb p "/srv/docs/ctl" then Some special
    else None;
  readdir := fun p =>
    if String.eqb p "/srv/docs" || String.eqb p "/srv/docs/" then
      [ {| name := "logo.png"; dirent_isDirectory := false |};
        {| name := "data.txt"; dirent_isDirectory := false |};
        {| name := "ctl"; dirent_isDirectory := false |};
        {| name := "guide"; dirent_isDirectory := true |} ]
    else if String.eqb p "/srv/docs/guide" || String.eqb p "/srv/docs/guide/" then
      [ {| name := "index.md"; dirent_isDirectory := false |};
        {| name := "intro.md"; dirent_isDirectory := false |} ]
    else [];
  readFile := fun p =>
    if String.eqb p "/srv/docs/guide/index.md" then index_md
    else if String.eqb p "/srv/docs/guide/intro.md" then "# Intro"
    else ""
|}.

Definition host : Host := {|
  path := Posix.module;
  fs := disk;
  marked := fun md => "<article>" ++ md ++ "</article>";
  mime_lookup := fun p =>
    if JS.endsWith p ".png" then Some "image/png"
    else if JS.endsWith p ".txt" then Some "text/plain"
    else None;
  DOCS_DIR := "/srv/docs"
|}.

End ExampleSite.

(** ** Reading the message back: [JSON.parse] on the page

    [JSON.parse] is followed on the texts [JSON.stringify] writes for flat
    objects of strings: no white space, string values only, the escapes of
    JSON with [\u] up to [007f], no key twice.  On any other text [parse]
    gives [None], which says nothing about [JSON.parse] there. *)

Module JSONParse.

Definition hex_value (c : ascii) : option nat :=
  let n := nat_of_ascii c in
  if Nat.leb 48 n && Nat.leb n 57 then Some (n - 48)
  else if Nat.leb 97 n && Nat.leb n 102 then Some (n - 87)
  else if Nat.leb 65 n && Nat.leb n 70 then Some (n - 55)
  else None.

Definition code_unit (a b c d : ascii) : option nat :=
  match hex_value a, hex_value b, hex_value c, hex_value d with
  | Some x, Some y, Some z, Some w => Some (((x * 16 + y) * 16 + z) * 16 + w)
  | _, _, _, _ => None
  end.

Definition push (c : ascii) (r : option (string * string)) : option (string * string) :=
  match r with
  | Some (s, rest) => Some (String c s, rest)
  | None => None
  end.

(** The characters of a string from behind its opening quote to its closing
    quote, and the text after that. *)
Fixpoint string_body (s : string) : option (string * string) :=
  match s with
  | EmptyString => None
  | String c s' =>
      if Ascii.eqb c JSON.dquote then Some (EmptyString, s')
      else if Ascii.eqb c JSON.backslash then
        match s' with
        | EmptyString => None
        | String e s'' =>
            if Ascii.eqb e JSON.dquote then push JSON.dquote (string_body s'')
            else if Ascii.eqb e JSON.backslash then push JSON.backslash (string_body s'')
            else if Ascii.eqb e "/" then push "/" (string_body s'')
            else if Ascii.eqb e "b" then push (ascii_of_nat 8) (string_body s'')
            else if Ascii.eqb e "t" then push (ascii_of_nat 9) (string_body s'')
            else if Ascii.eqb e "n" then push (ascii_of_nat 10) (string_body s'')
            else if Ascii.eqb e "f" then push (ascii_of_nat 12) (string_body s'')
            else if Ascii.eqb e "r" then push (ascii_of_nat 13) (string_body s'')
            else if Ascii.eqb e "u" then
              match s'' with
              | String a (String b (String c' (String d s3))) =>
                  match code_unit a b c' d with
                  | Some n =>
                      if Nat.ltb n 128 then push (ascii_of_nat n) (string_body s3)
                      else None
                  | None => None
                  end
              | _ => None
              end
            else None
        end
      else if Nat.ltb (nat_of_ascii c) 32 then None
      else push c (string_body s')
  end.

Definition string_token (s : string) : option (string * string) :=
  match s with
  | String c s' => if Ascii.eqb c JSON.dquote then string_body s' else None
  | EmptyString => None
  end.

(** One [key:value] and the text after it. *)
Definition property (s : string) : option ((string * string) * string) :=
  match string_token s with
  | Some (k, String c s') =>
      if Ascii.eqb c ":" then
        match string_token s' with
        | Some (v, rest) => Some ((k, v), rest)
        | None => None
        end
      else None
  | _ => None
  end.

(** The properties up to the closing brace; [fuel] bounds their number. *)
Fixpoint properties (fuel : nat) (s : string) : option (JSON.object * string) :=
  match fuel with
  | O => None
  | S fuel' =>
      match property s with
      | Some (kv, String c rest) =>
          if Ascii.eqb c "}" then Some ([kv], rest)
          else if Ascii.eqb c "," then
            match properties fuel' rest with
            | Some (o, rest') => Some (kv :: o, rest')
            | None => None
            end
          else None
      | _ => None
      end
  end.

Fixpoint distinct (keys : list string) : bool :=
  match keys with
  | [] => true
  | k :: ks => negb (existsb (String.eqb k) ks) && distinct ks
  end.

Definition parse (text : string) : option JSON.object :=
  match text with
  | String c rest =>
      if Ascii.eqb c "{" then
        if String.eqb rest "}" then Some []
        else
          match properties (String.length rest) rest with
          | Some (o, EmptyString) => if distinct (map fst o) then Some o else None
          | _ => None
          end
      else None
  | EmptyString => None
  end.

End JSONParse.

(** ** From the template to the page the browser runs *)

(** Both revisions write the page's script inside the template literal that
    [generateHtml] returns (lines 117-251 and 457-570).  The browser gets
    the cooked text of the literal with the values of the holes written
    into it, and runs what its HTML and JavaScript parsers make of that
    text. *)

Module TemplateLiteral.

(** The character that a backslash and [c] stand for in the cooked text of
    a template literal: the single-character escapes, and [c] itself for
    any other character (so the [\/] of line 543 is a slash).  Hexadecimal
    and unicode escapes and line continuations are left out: the script
    texts below have none. *)
Definition escaped (c : ascii) : ascii :=
  if Ascii.eqb c "n" then ascii_of_nat 10
  else if Ascii.eqb c "t" then ascii_of_nat 9
  else if Ascii.eqb c "r" then ascii_of_nat 13
  else if Ascii.eqb c "b" then ascii_of_nat 8
  else if Ascii.eqb c "f" then ascii_of_nat 12
  else if Ascii.eqb c "v" then ascii_of_nat 11
  else if Ascii.eqb c "0" then ascii_of_nat 0
  else c.

(** The cooked text of a chunk of a template literal between two holes. *)
Fixpoint cook (raw : string) : string :=
  match raw with
  | EmptyString => EmptyString
  | String c rest =>
      if Ascii.eqb c JSON.backslash then
        match rest with
        | EmptyString => EmptyString
        | String e rest' => String (escaped e) (cook rest')
        end
      else String c (cook rest)
  end.

End TemplateLiteral.

Module Html.

(** The content of a [style] element is raw text: it ends at the next
    [</style], and at the end of the document when there is none, so a tag
    written in between is no tag.  [style_left_open inside html] tells
    whether the parser is inside such an element after [html]. *)
Fixpoint style_left_open (inside : bool) (html : string) : bool :=
  match html with
  | EmptyString => inside
  | String _ rest =>
      if inside then
        style_left_open (negb (JS.startsWith html "</style")) rest
      else
        style_left_open (JS.startsWith html "<style") rest
  end.

End Html.

Module Script.

Definition dq : string := String JSON.dquote "".

Definition line_feed : ascii := ascii_of_nat 10.

Definition line_terminator (c : ascii) : bool :=
  Ascii.eqb c line_feed || Ascii.eqb c (ascii_of_nat 13).

(** The lines of a script, as one text. *)
Definition lines (ls : list string) : string := JS.join (String line_feed "") ls.

(** A character that stands for itself between the double quotes of a
    string literal of a script element: no double quote, no backslash, no
    line terminator, and no [<], with which [</script] would end the
    element inside the literal. *)
Definition plain_char (c : ascii) : bool :=
  negb (Ascii.eqb c JSON.dquote || Ascii.eqb c JSON.backslash
        || line_terminator c || Ascii.eqb c "<").

Fixpoint plain (text : string) : bool :=
  match text with
  | EmptyString => true
  | String c rest => plain_char c && plain rest
  end.

(** The value of the string literal with [text] between its quotes, where
    every character of [text] stands for itself.  [None]: the literal ends
    early, holds an escape or ends the script element; the page is not
    followed there. *)
Definition string_literal (text : string) : option string :=
  if plain text then Some text else None.

(** Where the scanner of a script is: in code, after a slash in code, in a
    string literal (after a backslash in it), in a comment (after a star in
    a block comment). *)
Inductive Mode :=
| Code | Slash
| SingleQuoted | SingleEscape
| DoubleQuoted | DoubleEscape
| LineComment | BlockComment | BlockStar.

(** The mode and the number of brackets that are open. *)
Definition State : Type := Mode * nat.

Definition opening (c : ascii) : bool :=
  Ascii.eqb c "(" || Ascii.eqb c "[" || Ascii.eqb c "{".

Definition closing (c : ascii) : bool :=
  Ascii.eqb c ")" || Ascii.eqb c "]" || Ascii.eqb c "}".

(** A character of code.  [None]: a bracket is closed that was not
    opened. *)
Definition code (depth : nat) (c : ascii) : option State :=
  if Ascii.eqb c "'" then Some (SingleQuoted, depth)
  else if Ascii.eqb c JSON.dquote then Some (DoubleQuoted, depth)
  else if Ascii.eqb c "/" then Some (Slash, depth)
  else if opening c then Some (Code, S depth)
  else if closing c then
    match depth with
    | O => None
    | S depth' => Some (Code, depth')
    end
  else Some (Code, depth).

(** One character.  Two slashes in code open a comment up to the end of
    the line, whatever stands before them: a regular expression cannot be
    empty.  A regular expression is otherwise read as code, which is exact
    as long as it holds no quote and no bracket.  [None]: a string literal
    runs into the end of its line. *)
Definition step (st : State) (c : ascii) : option State :=
  let (mode, depth) := st in
  match mode with
  | Code => code depth c
  | Slash =>
      if Ascii.eqb c "/" then Some (LineComment, depth)
      else if Ascii.eqb c "*" then Some (BlockComment, depth)
      else code depth c
  | SingleQuoted =>
      if Ascii.eqb c JSON.backslash then Some (SingleEscape, depth)
      else if Ascii.eqb c "'" then Some (Code, depth)
      else if line_terminator c then None
      else Some (SingleQuoted, depth)
  | SingleEscape => Some (SingleQuoted, depth)
  | DoubleQuoted =>
      if Ascii.eqb c JSON.backslash then Some (DoubleEscape, depth)
      else if Ascii.eqb c JSON.dquote then Some (Code, depth)
      else if line_terminator c then None
      else Some (DoubleQuoted, depth)
  | DoubleEscape => Some (DoubleQuoted, depth)
  | LineComment =>
      if line_terminator c then Some (Code, depth) else Some (LineComment, depth)
  | BlockComment =>
      if Ascii.eqb c "*" then Some (BlockStar, depth) else Some (BlockComment, depth)
  | BlockStar =>
      if Ascii.eqb c "/" then Some (Code, depth)
      else if Ascii.eqb c "*" then Some (BlockStar, depth)
      else Some (BlockComment, depth)
  end.

Fixpoint scan (st : State) (s : string) : option State :=
  match s with
  | EmptyString => Some st
  | String c rest =>
      match step st c with
      | Some st' => scan st' rest
      | None => None
      end
  end.

(** What every script that parses passes: outside its string literals and
    comments each bracket that is opened is closed, and at its end no
    string literal, no block comment and no bracket is open.  A script
    that does not parse is not run at all, not in part either. *)
Definition can_parse (script : string) : bool :=
  match scan (Code, 0) script with
  | Some (Code, O) | Some (LineComment, O) => true
  | _ => false
  end.

End Script.

(** *** The page of revision 1 *)

Module Rev1Page.

(** server.js lines 166-186, up to the hole [${currentPath}] of line 186 *)
Definition script_before : list string :=
  [ "        // Initialize mermaid";
    "        mermaid.initialize({ startOnLoad: false, theme: 'dark' });";
    "";
    "        document.addEventListener(" ++ Script.dq ++ "DOMContentLoaded" ++ Script.dq ++ ", function() {";
    "            const mermaidBlocks = document.querySelectorAll('code.language-mermaid');";
    "            mermaidBlocks.forEach(block => {";
    "                const pre = block.parentElement;";
    "                const content = block.textContent;";
    "                const div = document.createElement('div');";
    "                div.className = 'mermaid';";
    "                div.textContent = content;";
    "                pre.replaceWith(div);";
    "            });";
    "            mermaid.run();";
    "        });";
    "";
    "        const protocol = window.location.protocol === 'https:' ? 'wss:' : 'ws:';";
    "        const socket = new WebSocket(protocol + '//' + window.location.host);";
    "        ";
    "        // This is the path of the file/directory being VIEWED";
    "        const currentViewPath = " ++ Script.dq ].

(** server.js lines 186-247, from the hole of line 186 on *)
Definition script_after : list string :=
  [ Script.dq ++ "; ";
    "        ";
    "        socket.onmessage = function(event) {";
    "            const data = JSON.parse(event.data);";
    "            if (data.type === 'update') {";
    "               console.log('Update received for:', data.path);";
    "               ";
    "               // Reload logic:";
    "               // 1. If the changed file IS the current file we are viewing.";
    "               // 2. If we are viewing a directory, and the changed file is INSIDE that directory.";
    "               // 3. Special case for index files (e.g. if viewing 'folder/', and 'folder/index.md' changes)";
    "               ";
    "               // Check exact match";
    "               if (data.path === currentViewPath) {";
    "                   console.log('Reloading: exact match');";
    "                   window.location.reload();";
    "                   return;";
    "               }";
    "               ";
    "               // Check if we are viewing the directory that contains the changed file";
    "               // If currentViewPath is 'folder1', and data.path is 'folder1/file.md'";
    "               ";
    "               if (currentViewPath === '') {";
    "                   // We are at root.";
    "                   // If a file in root changes (no slashes in path), reload.";
    "                   if (!data.path.includes('/')) {";
    "                       console.log('Reloading: root file changed');";
    "                       window.location.reload();";
    "                       return;";
    "                   }";
    "               } else {";
    "                   // We are in a subdirectory 'folder1'";
    "                   // If the changed file is IN this directory (direct child), reload.";
    "                   // data.path = 'folder1/file.md'";
    "                   // prefix = 'folder1/'";
    "                   const prefix = currentViewPath + '/';";
    "                   if (data.path.startsWith(prefix)) {";
    "                       // Check if it is a direct child (no more slashes after prefix)";
    "                       const remaining = data.path.substring(prefix.length);";
    "                       if (!remaining.includes('/')) {";
    "                           console.log('Reloading: directory content changed');";
    "                           window.location.reload();";
    "                           return;";
    "                       }";
    "                       ";
    "                       // If index.md inside this folder changed, we might need to reload if we are serving index.md";
    "                       // But if we are legally just listing files, index.md change will trigger above logic anyway.";
    "                       // If we are serving rendered index.md, currentViewPath might not be the folder path but the file path?";
    "                       // Wait, in server.js:";
    "                       // if (stats.isDirectory()) { ... render index.md ... relativePathStr = ... relative(..., indexPath) }";
    "                       // So if index.md exists, currentViewPath IS 'folder1/index.md'.";
    "                       // Then the exact match logic handles it!";
    "                       ";
    "                       // If we are listing files (no index.md), currentViewPath IS 'folder1'.";
    "                       // Then if a file is added/removed/changed, we reload.";
    "                   }";
    "               }";
    "            }";
    "        };";
    "        ";
    "        socket.onopen = () => console.log('Connected to live reload');";
    "        socket.onclose = () => console.log('Disconnected from live reload');" ].

(** The text of the script element, without the white space at its two
    ends: the two chunks, cooked, around the value of [currentPath]. *)
Definition script (currentPath : string) : string :=
  TemplateLiteral.cook (Script.lines script_before) ++ currentPath
  ++ TemplateLiteral.cook (Script.lines script_after).

(** Lines 164-165: the template between the hole [${content}] and the start
    tag of the script.  What the holes before it hold is taken to leave the
    parser in the text of the body. *)
Definition before_script : string :=
  "</div>" ++ String Script.line_feed "    ".

(** The handler is installed when the script's start tag is a tag and the
    script parses.  A script that passes [Script.can_parse] is taken to
    parse, and to run as its lines read in [Rev1.onmessage]. *)
Definition handler_installed (currentPath : string) : bool :=
  negb (Html.style_left_open false before_script)
  && Script.can_parse (script currentPath).

(** What the page built for [currentPath] does with a message: [Some true]
    is [window.location.reload()]. *)
Definition onmessage (currentPath : string) (data : JSON.object) : option bool :=
  match Script.string_literal currentPath with
  | None => None
  | Some currentViewPath =>
      Some (if handler_installed currentPath
            then Rev1.onmessage currentViewPath data
            else false)
  end.

Definition viewMatch (V C : string) : option bool :=
  onmessage V (update_message C "change").


End Rev1Page.

(** *** The page of revision 2 *)

Module Rev2Page.

(** server.js lines 515-535, up to the hole [${currentPath}] of line 535 *)
Definition script_before : list string :=
  [ "        // Initialize mermaid";
    "        mermaid.initialize({ startOnLoad: false, theme: 'dark' });";
    "";
    "        document.addEventListener(" ++ Script.dq ++ "DOMContentLoaded" ++ Script.dq ++ ", function() {";
    "            const mermaidBlocks = document.querySelectorAll('code.language-mermaid');";
    "            mermaidBlocks.forEach(block => {";
    "                const pre = block.parentElement;";
    "                const content = block.textContent;";
    "                const div = document.createElement('div');";
    "                div.className = 'mermaid';";
    "                div.textContent = content;";
    "                pre.replaceWith(div);";
    "            });";
    "            mermaid.run();";
    "        });";
    "";
    "        const protocol = window.location.protocol === 'https:' ? 'wss:' : 'ws:';";
    "        const socket = new WebSocket(protocol + '//' + location.hostname + ':' + location.port); ";
    "";
    "        // This is the path of the file/directory being VIEWED";
    "        const currentViewPath = " ++ Script.dq ].

(** server.js lines 535-566, from the hole of line 535 on *)
Definition script_after : list string :=
  [ Script.dq ++ "; ";
    "        ";
    "        socket.onmessage = function(event) {";
    "            console.log('RAW WS:', event.data);";
    "";
    "            const data = JSON.parse(event.data);";
    "            console.log('Parsed:', data);";
    "";
    "            const current = currentViewPath.replace(/\/$/, '');";
    "            console.log('Current view:', current);";
    "";
    "            if (data.type !== 'update') return;";
    "";
    "            if (data.path === current) {";
    "                console.log('Exact match reload');";
    "                window.location.reload();";
    "                return;";
    "            }";
    "";
    "            if (!current.includes('.md')) {";
    "                const prefix = current ? current + '/' : '';";
    "                console.log('Prefix:', prefix);";
    "";
    "                if (data.path.startsWith(prefix)) {";
    "                    console.log('Directory reload');";
    "                    window.location.reload();";
    "                }";
    "            }";
    "        };        ";
    "";
    "        socket.onopen = () => console.log('Connected to live reload');";
    "        socket.onclose = () => console.log('Disconnected from live reload');" ].

(** The script as it stands in server.js, escapes untouched. *)
Definition script_as_written (currentPath : string) : string :=
  Script.lines script_before ++ currentPath ++ Script.lines script_after.

(** The text of the script element, without the white space at its two
    ends: the two chunks, cooked, around the value of [currentPath]. *)
Definition script (currentPath : string) : string :=
  TemplateLiteral.cook (Script.lines script_before) ++ currentPath
  ++ TemplateLiteral.cook (Script.lines script_after).

(** Lines 512-514: the template between the hole [${content}] and the start
    tag of the script.  What the holes before it hold is taken to leave the
    parser in the text of the body. *)
Definition before_script : string :=
  "</div>" ++ String Script.line_feed
    ("    <style> body { padding-top: 70px; }" ++ String Script.line_feed "    ").

(** As in [Rev1Page]; without a handler no message does anything. *)
Definition handler_installed (currentPath : string) : bool :=
  negb (Html.style_left_open false before_script)
  && Script.can_parse (script currentPath).

(** What the page built for [currentPath] does with a message. *)
Definition onmessage (currentPath : string) (data : JSON.object) : option bool :=
  match Script.string_literal currentPath with
  | None => None
  | Some currentViewPath =>
      Some (if handler_installed currentPath
            then Rev2.onmessage currentViewPath data
            else false)
  end.

Definition viewMatch (V C : string) : option bool :=
  onmessage V (update_message C "change").

End Rev2Page.


(** The [stat] calls of lines 274-279 and 593-598, in order. *)
Definition resolve_log (h : Host) (requestPath : string) : list FsOp :=
  let filePath := path_join (path h) (DOCS_DIR h) requestPath in
  match stat (fs h) filePath with
  | Some _ => [OpStat filePath]
  | None =>
      if JS.endsWith filePath ".md" then [OpStat filePath]
      else [OpStat filePath; OpStat (filePath ++ ".md")]
  end.

(** ** The directory walker (server.js lines 254-262 and 573-581) *)

(** [Array.prototype.concat(...files)] over the results of [Promise.all]:
    [None] when one of the promises gave no list. *)
Fixpoint concat_results (results : list (option (list string))) : option (list string) :=
  match results with
  | [] => Some []
  | None :: _ => None
  | Some files :: rest =>
      match concat_results rest with
      | Some more => Some (files ++ more)%list
      | None => None
      end
  end.

(** [getFiles(dir)], with [path.resolve] of two arguments as [resolve].
    [fs.promises.readdir] rejects where [dir] is not on the disk or is no
    directory there, and the rejection passes through [await] and
    [Promise.all] to the caller.  [fuel] bounds the depth of the
    recursion.  [None]: no list comes back, the promise is rejected or the
    fuel is used up.  With [withFileTypes] a link to a directory is no
    directory, so the walk follows the tree of the disk. *)
Fixpoint getFiles (resolve : string -> string -> string) (disk : FileSystem)
    (fuel : nat) (dir : string) : option (list string) :=
  match fuel with
  | O => None
  | S fuel' =>
      match stat disk dir with
      | Some st =>
          if isDirectory st then
            let dirents := readdir disk dir in
            let files :=
              map (fun dirent =>
                     let res := resolve dir (name dirent) in
                     if dirent_isDirectory dirent then getFiles resolve disk fuel' res
                     else Some [res])
                  dirents in
            concat_results files
          else None
      | None => None
      end
  end.

(** [p] is an entry that is no directory, in [dir] or in a directory
    below it. *)
Inductive file_below (resolve : string -> string -> string) (disk : FileSystem)
    : string -> string -> Prop :=
| file_here dir dirent :
    In dirent (readdir disk dir) -> dirent_isDirectory dirent = false ->
    file_below resolve disk dir (resolve dir (name dirent))
| file_deeper dir dirent p :
    In dirent (readdir disk dir) -> dirent_isDirectory dirent = true ->
    file_below resolve disk (resolve dir (name dirent)) p ->
    file_below resolve disk dir p.

(** [stat] reports a directory at [dir]. *)
Definition is_directory (disk : FileSystem) (dir : string) : bool :=
  match stat disk dir with
  | Some st => isDirectory st
  | None => false
  end.

(** [dir] is a directory of the disk, and so is what its entries marked as
    directories resolve to, down to the last one; they are nested at most
    [depth] deep. *)
Fixpoint directories_within (resolve : string -> string -> string) (disk : FileSystem)
    (depth : nat) (dir : string) : Prop :=
  is_directory disk dir = true /\
  forall dirent,
    In dirent (readdir disk dir) -> dirent_isDirectory dirent = true ->
    match depth with
    | O => False
    | S depth' => directories_within resolve disk depth' (resolve dir (name dirent))
    end.


(** * Facts about the string primitives *)

Module JSFacts.
Import JS.

Lemma startsWith_empty s : startsWith s "" = true.
Proof. destruct s; reflexivity. Qed.

Lemma startsWith_iff p : forall s, startsWith s p = true <-> exists r, s = p ++ r.
Proof.
  induction p as [|a p IH]; intros s; simpl.
  - split; [intros _; now exists s | reflexivity].
  - destruct s as [|b s].
    + split; [discriminate | intros [r Hr]; discriminate].
    + rewrite andb_true_iff, Ascii.eqb_eq, IH. split.
      * intros [-> [r ->]]. now exists r.
      * intros [r Hr]. injection Hr as -> ->. split; [reflexivity | now exists r].
Qed.

Lemma append_assoc (a b c : string) : (a ++ b) ++ c = a ++ (b ++ c).
Proof. induction a as [|x a IH]; simpl; [reflexivity | now rewrite IH]. Qed.

Lemma append_empty_r (a : string) : a ++ "" = a.
Proof. induction a as [|x a IH]; simpl; [reflexivity | now rewrite IH]. Qed.

Lemma startsWith_shorter s p q : startsWith s (p ++ q) = true -> startsWith s p = true.
Proof.
  rewrite !startsWith_iff. intros [r ->]. exists (q ++ r). apply append_assoc.
Qed.

Lemma endsWith_iff suf : forall s, endsWith s suf = true <-> exists a, s = a ++ suf.
Proof.
  induction s as [|c s IH]; cbn [endsWith].
  - rewrite orb_false_r, String.eqb_eq. split.
    + intros <-. now exists "".
    + intros [a Ha]. destruct a; [exact Ha | discriminate].
  - rewrite orb_true_iff, String.eqb_eq, IH. split.
    + intros [<- | [a ->]]; [now exists "" | now exists (String c a)].
    + intros [a Ha]. destruct a as [|x a]; [now left | right].
      injection Ha as _ ->. now exists a.
Qed.

Lemma slice_0_m1_snoc c : forall a, slice_0_m1 (a ++ String c "") = a.
Proof.
  induction a as [|x a IH]; [reflexivity|].
  simpl. rewrite IH. destruct a; reflexivity.
Qed.

(** What [replace(/\/$/, '')] leaves: the string itself, or the string
    without its last slash. *)
Lemma replace_trailing_slash_spec V :
  (endsWith V "/" = false /\ replace_trailing_slash V = V) \/
  V = replace_trailing_slash V ++ "/".
Proof.
  unfold replace_trailing_slash. destruct (endsWith V "/") eqn:E.
  - right. apply endsWith_iff in E. destruct E as [a ->].
    now rewrite slice_0_m1_snoc.
  - now left.
Qed.

Lemma replace_trailing_slash_canonical V :
  endsWith V "/" = false -> replace_trailing_slash V = V.
Proof. unfold replace_trailing_slash. now intros ->. Qed.

End JSFacts.

Lemma Rev2_viewMatch_unfold V C :
  Rev2.viewMatch V C =
  let current := JS.replace_trailing_slash V in
  if String.eqb C current then true
  else if negb (JS.includes current ".md") then
    if JS.startsWith C (if JS.truthy current then current ++ "/" else "")
    then true else false
  else false.
Proof. reflexivity. Qed.

Lemma Rev1_viewMatch_unfold V C :
  Rev1.viewMatch V C =
  if String.eqb C V then true
  else if String.eqb V "" then
    if negb (JS.includes C "/") then true else false
  else if JS.startsWith C (V ++ "/") then
    if negb (JS.includes (JS.substring (String.length (V ++ "/")) C) "/")
    then true else false
  else false.
Proof. reflexivity. Qed.

(** * The page scripts, as the browser gets them *)

Module PageFacts.
Import Script.

Lemma scan_app : forall (a b : string) (st : State),
  scan st (a ++ b) =
  match scan st a with
  | Some st' => scan st' b
  | None => None
  end.
Proof.
  induction a as [|c a IH]; intros b st; [reflexivity|].
  cbn [append scan]. destruct (step st c); [apply IH | reflexivity].
Qed.

(** Inside a double-quoted literal plain characters change nothing. *)
Lemma scan_plain : forall (V : string) (depth : nat),
  plain V = true -> scan (DoubleQuoted, depth) V = Some (DoubleQuoted, depth).
Proof.
  induction V as [|c V IH]; intros depth H; [reflexivity|].
  cbn [plain] in H. apply andb_true_iff in H. destruct H as [Hc HV].
  unfold plain_char in Hc. apply negb_true_iff in Hc.
  apply orb_false_iff in Hc. destruct Hc as [Hc _].
  apply orb_false_iff in Hc. destruct Hc as [Hc Hline].
  apply orb_false_iff in Hc. destruct Hc as [Hquote Hback].
  cbn [scan step]. rewrite Hback, Hquote, Hline. now apply IH.
Qed.

Lemma scan_around (before V after : string) (depth : nat) :
  plain V = true ->
  scan (Code, 0) before = Some (DoubleQuoted, depth) ->
  scan (Code, 0) (before ++ V ++ after) = scan (DoubleQuoted, depth) after.
Proof.
  intros HV Hbefore. rewrite scan_app, Hbefore, scan_app.
  now rewrite (scan_plain V depth HV).
Qed.

End PageFacts.

(** The script of revision 1 has no backslash: the browser gets it as it
    stands in server.js. *)
Lemma Rev1_script_is_sent_as_written (V : string) :
  Rev1Page.script V =
  Script.lines Rev1Page.script_before ++ V ++ Script.lines Rev1Page.script_after.
Proof.
  unfold Rev1Page.script. f_equal; vm_compute; reflexivity.
Qed.

(** Line 543 of revision 2 is not sent as it stands: its regular expression
    [/\/$/] arrives as two slashes and [$/]. *)
Lemma Rev2_line_543_is_cooked :
  In "            const current = currentViewPath.replace(/\/$/, '');"
     Rev2Page.script_after /\
  TemplateLiteral.cook
    "            const current = currentViewPath.replace(/\/$/, '');"
  = "            const current = currentViewPath.replace(//$/, '');".
Proof.
  split; [|reflexivity].
  unfold Rev2Page.script_after. cbn [In].
  repeat (first [left; reflexivity | right]).
Qed.

(** The two slashes open a comment that takes the rest of the line with
    it, the closing bracket of [replace(] included: the line is left with
    a bracket that nothing closes. *)
Lemma Rev2_line_543_is_left_open :
  Script.scan (Script.Code, 0)
    "            const current = currentViewPath.replace(/\/$/, '');"
  = Some (Script.Code, 0) /\
  Script.scan (Script.Code, 0)
    "            const current = currentViewPath.replace(//$/, '');"
  = Some (Script.LineComment, 1).
Proof. split; reflexivity. Qed.

Lemma Rev1_script_can_parse (V : string) :
  Script.plain V = true -> Script.can_parse (Rev1Page.script V) = true.
Proof.
  intros HV. unfold Script.can_parse, Rev1Page.script.
  rewrite (PageFacts.scan_around _ V _ 0 HV); vm_compute; reflexivity.
Qed.

(** The script of revision 2 passes the check as it stands in server.js,
    where line 543 holds a regular expression ... *)
Lemma Rev2_script_as_written_can_parse (V : string) :
  Script.plain V = true -> Script.can_parse (Rev2Page.script_as_written V) = true.
Proof.
  intros HV. unfold Script.can_parse, Rev2Page.script_as_written.
  rewrite (PageFacts.scan_around _ V _ 0 HV); vm_compute; reflexivity.
Qed.

(** ... and fails it as the browser gets it: the script does not parse. *)
Lemma Rev2_script_cannot_parse (V : string) :
  Script.plain V = true -> Script.can_parse (Rev2Page.script V) = false.
Proof.
  intros HV. unfold Script.can_parse, Rev2Page.script.
  rewrite (PageFacts.scan_around _ V _ 0 HV); vm_compute; reflexivity.
Qed.

(** In revision 2 the start tag of the script stands inside the [style]
    element that line 513 opens and nothing closes; revision 1 has no such
    element there. *)
Lemma Rev2_script_tag_is_inside_style :
  Html.style_left_open false Rev2Page.before_script = true /\
  Html.style_left_open false Rev1Page.before_script = false.
Proof. split; reflexivity. Qed.

(** The page of revision 1 runs the handler of lines 188-244. *)
Lemma Rev1_page_runs_the_handler (V : string) (data : JSON.object) :
  Script.plain V = true ->
  Rev1Page.onmessage V data = Some (Rev1.onmessage V data).
Proof.
  intros HV. unfold Rev1Page.onmessage, Script.string_literal, Rev1Page.handler_installed.
  rewrite HV, (Rev1_script_can_parse V HV). reflexivity.
Qed.

Lemma Rev1_page_viewMatch (V C : string) :
  Script.plain V = true -> Rev1Page.viewMatch V C = Some (Rev1.viewMatch V C).
Proof. intros HV. now apply Rev1_page_runs_the_handler. Qed.

(** The page of revision 2 has no handler: whatever comes in, it stays as
    it is. *)
Lemma Rev2_page_has_no_handler (V : string) (data : JSON.object) :
  Script.plain V = true -> Rev2Page.onmessage V data = Some false.
Proof.
  intros HV. unfold Rev2Page.onmessage, Script.string_literal. now rewrite HV.
Qed.


(** X21.  The page of revision 2 installs no handler.  For every view
    identifier that stands for itself in the script's string literal, the
    script that the browser gets does not parse, its start tag stands
    inside the [style] element that line 513 leaves open, and the page
    stays as it is on every message. *)
Theorem revision_2_page_installs_no_handler (V : string) :
  Script.plain V = true ->
  Script.can_parse (Rev2Page.script V) = false /\
  Html.style_left_open false Rev2Page.before_script = true /\
  forall data, Rev2Page.onmessage V data = Some false.
Proof.
  intros HV. split; [now apply Rev2_script_cannot_parse|].
  split; [reflexivity|]. intros data. now apply Rev2_page_has_no_handler.
Qed.

Lemma revision_2_page_example :
  Script.can_parse (Rev2Page.script "guide") = false /\
  Html.style_left_open false Rev2Page.before_script = true /\
  forall data, Rev2Page.onmessage "guide" data = Some false.
Proof.
  apply (revision_2_page_installs_no_handler "guide"). reflexivity.
Defined.

(** * The view-match engine *)

(** The handlers do not look at [event]. *)
Lemma onmessage_ignores_event (V C event : string) :
  Rev1.onmessage V (update_message C event) = Rev1.viewMatch V C /\
  Rev2.onmessage V (update_message C event) = Rev2.viewMatch V C.
Proof. split; reflexivity. Qed.

(** C1.  The page that revision 2 sends for the listing of [guide] stays as
    it is when [guide/sub/deep.md] changes.  So does the page for a
    directory with [.md] in its path when something below it changes, and
    there the handler of lines 537-563 would not reload either: line 554
    looks for [.md] anywhere in the identifier. *)
Theorem C1_directory_view_does_not_reload :
  Rev2Page.viewMatch "guide" "guide/sub/deep.md" = Some false /\
  Rev2Page.viewMatch "v1.md.d" "v1.md.d/a.md" = Some false /\
  Rev2.viewMatch "v1.md.d" "v1.md.d/a.md" = false.
Proof. repeat split; reflexivity. Qed.

(** The handlers at the same event: revision 2 writes down a reload for
    every descendant, revision 1 for a direct child only. *)
Lemma handlers_on_a_deep_descendant :
  Rev2.viewMatch "guide" "guide/sub/deep.md" = true /\
  Rev1.viewMatch "guide" "guide/sub/deep.md" = false /\
  Rev1.viewMatch "guide" "guide/deep.md" = true.
Proof. repeat split; reflexivity. Qed.




(** C5.  The page that revision 2 sends for [guide/intro.md] stays as it is
    when [guide/intro.md] changes.  The page of revision 1 reloads on the
    path it shows, whatever that is. *)
Theorem C5_exact_match :
  Rev2Page.viewMatch "guide/intro.md" "guide/intro.md" = Some false /\
  Rev1Page.viewMatch "guide/intro.md" "guide/intro.md" = Some true /\
  (forall V, Script.plain V = true -> Rev1Page.viewMatch V V = Some true).
Proof.
  split; [reflexivity|]. split; [reflexivity|].
  intros V HV. rewrite (Rev1_page_viewMatch V V HV), Rev1_viewMatch_unfold.
  now rewrite String.eqb_refl.
Qed.

(** C6. For a markdown view the containment rule is not consulted: the
    decision of revision 2 is the exact match alone, so a change to any
    other path leaves the viewer alone. *)
Theorem C6_markdown_view_has_no_containment (V C : string) :
  Rev2.markdown_view V = true ->
  C <> JS.replace_trailing_slash V ->
  Rev2.viewMatch V C = false.
Proof.
  intros Hmd Hne. rewrite Rev2_viewMatch_unfold. cbv zeta.
  unfold Rev2.markdown_view in Hmd. rewrite Hmd.
  apply String.eqb_neq in Hne. now rewrite Hne.
Qed.

Lemma C6_sibling_document_example :
  Rev2.viewMatch "guide/intro.md" "guide/other.md" = false.
Proof.
  apply (C6_markdown_view_has_no_containment "guide/intro.md" "guide/other.md").
  - reflexivity.
  - vm_compute. discriminate.
Defined.




(** Outside the view neither revision reloads. *)
Lemma revisions_agree_outside_the_view (V C : string) :
  Script.plain V = true -> V <> "" ->
  C <> V -> JS.startsWith C (V ++ "/") = false ->
  Rev1Page.viewMatch V C = Some false /\ Rev2Page.viewMatch V C = Some false.
Proof.
  intros HV Hroot Hne Hout. split; [|now apply Rev2_page_has_no_handler].
  rewrite (Rev1_page_viewMatch V C HV), Rev1_viewMatch_unfold.
  apply String.eqb_neq in Hne, Hroot. now rewrite Hne, Hroot, Hout.
Qed.

(** * The watcher callback and the broadcast *)

Module SplitFacts.
Import JS.

Lemma chars_append a b : list_ascii_of_string (a ++ b) = (list_ascii_of_string a ++ list_ascii_of_string b)%list.
Proof. induction a as [|x a IH]; simpl; [reflexivity | now rewrite IH]. Qed.

Lemma includes_char c : forall s,
  includes s (String c "") = true <-> In c (list_ascii_of_string s).
Proof.
  induction s as [|x s IH]; cbn [includes startsWith list_ascii_of_string].
  - split; [discriminate | intros []].
  - rewrite orb_true_iff, IH, andb_true_r, Ascii.eqb_eq. cbn [In]. tauto.
Qed.

Lemma split_not_nil sep s : split sep s <> [].
Proof.
  destruct s as [|c s]; cbn [split]; [discriminate|].
  destruct (Ascii.eqb c sep); [discriminate|].
  destruct (split sep s); discriminate.
Qed.

(** No piece of a split holds the separator. *)
Lemma split_pieces_free sep : forall s x,
  In x (split sep s) -> ~ In sep (list_ascii_of_string x).
Proof.
  induction s as [|c s IH]; cbn [split]; intros x Hx.
  - destruct Hx as [<- | []]. intros [].
  - destruct (Ascii.eqb_spec c sep) as [-> | Hne].
    + destruct Hx as [<- | Hx]; [intros [] | now apply IH].
    + destruct (split sep s) as [|p ps] eqn:E.
      * destruct Hx as [<- | []]. intros [H | []]. now apply Hne.
      * destruct Hx as [<- | Hx].
        -- intros [H | H]; [now apply Hne|].
           apply (IH p); [now left | exact H].
        -- apply IH. now right.
Qed.

Lemma join_chars sep : forall ps c,
  In c (list_ascii_of_string (join sep ps)) ->
  In c (list_ascii_of_string sep) \/ exists p, In p ps /\ In c (list_ascii_of_string p).
Proof.
  induction ps as [|p ps IH]; intros c Hc; [destruct Hc|].
  destruct ps as [|q ps].
  - right. exists p. split; [now left | exact Hc].
  - change (join sep (p :: q :: ps)) with (p ++ sep ++ join sep (q :: ps)) in Hc.
    rewrite !chars_append, !in_app_iff in Hc.
    destruct Hc as [Hc | [Hc | Hc]].
    + right. exists p. split; [now left | exact Hc].
    + now left.
    + destruct (IH c Hc) as [H | [x [Hx Hcx]]]; [now left | right].
      exists x. split; [now right | exact Hcx].
Qed.

(** Joining the pieces with the separator gives the string back. *)
Lemma join_split sep : forall s, join (String sep "") (split sep s) = s.
Proof.
  induction s as [|c s IH]; [reflexivity|]. cbn [split].
  destruct (Ascii.eqb_spec c sep) as [-> | Hne].
  - destruct (split sep s) as [|p ps] eqn:E; [now apply split_not_nil in E|].
    change (join (String sep "") ("" :: p :: ps))
      with (String sep (join (String sep "") (p :: ps))).
    now rewrite IH.
  - destruct (split sep s) as [|p ps] eqn:E; [now apply split_not_nil in E|].
    destruct ps as [|q ps]; cbn [join] in *; now rewrite <- IH.
Qed.

End SplitFacts.

(** [p.split(path.sep).join('/')] leaves no separator of the host behind,
    and changes nothing where the separator is the slash. *)
Lemma to_url_path_forward_slashes (pm : PathModule) (p : string) :
  (sep pm <> "/"%char ->
   JS.includes (to_url_path pm p) (String (sep pm) "") = false) /\
  (sep pm = "/"%char -> to_url_path pm p = p).
Proof.
  unfold to_url_path. split.
  - intros Hsep. apply not_true_is_false. intros H.
    apply SplitFacts.includes_char in H.
    apply SplitFacts.join_chars in H. destruct H as [[H | []] | [x [Hx Hc]]].
    + now apply Hsep.
    + now apply (SplitFacts.split_pieces_free _ _ _ Hx).
  - intros ->. apply SplitFacts.join_split.
Qed.

Lemma notify_clients_open (clients : list Client) (relativePath event : string) :
  notify_clients clients relativePath event =
  map (fun client =>
         (client_id client, JSON.stringify (update_message relativePath event)))
      (filter is_open clients).
Proof.
  induction clients as [|c cs IH]; [reflexivity|].
  cbn [notify_clients filter]. unfold is_open at 1.
  destruct (ReadyState_eqb (readyState c) OPEN); cbn [map]; now rewrite IH.
Qed.



(** Any other event of chokidar leaves the clients alone. *)
Lemma Rev2_other_events_are_ignored (h : Host) (clients : list Client)
    (event filePath : string) :
  (forall k, event <> chokidar_event k) ->
  Rev2.on_all h clients event filePath = nothing.
Proof.
  intros H. unfold Rev2.on_all.
  destruct (String.eqb_spec event "change") as [E | _];
    [now apply (H modified) in E|].
  destruct (String.eqb_spec event "add") as [E | _];
    [now apply (H created) in E|].
  destruct (String.eqb_spec event "unlink") as [E | _];
    [now apply (H removed) in E|].
  destruct (String.eqb_spec event "addDir") as [E | _];
    [now apply (H directory_created) in E|].
  destruct (String.eqb_spec event "unlinkDir") as [E | _];
    [now apply (H directory_removed) in E|].
  reflexivity.
Qed.

(** Revision 1 passes on the three file events only. *)
Lemma Rev1_watcher_drops_directory_events (h : Host) (clients : list Client)
    (filePath : string) :
  Rev1.on_all h clients "addDir" filePath = nothing /\
  Rev1.on_all h clients "unlinkDir" filePath = nothing /\
  (forall k, k <> directory_created -> k <> directory_removed ->
     Rev1.on_all h clients (chokidar_event k) filePath =
     notify h clients (chokidar_event k) filePath).
Proof.
  repeat split. intros k H1 H2. destruct k; try reflexivity; contradiction.
Qed.

(** C4 as stated fails: the object on the wire has [type], not [kind], and
    a page that received the object of the claim would ignore it. *)
Lemma C4_message_has_type_not_kind :
  sent (Rev2.on_all Example.host Example.clients "change" "/srv/docs/a.md") <>
    map (fun client =>
           (client_id client, JSON.stringify (spec_update_message "change" "a.md")))
        (filter is_open Example.clients) /\
  JSON.get "kind" (update_message "a.md" "change") = None /\
  Rev2.onmessage "a.md" (spec_update_message "change" "a.md") = false.
Proof. split; [vm_compute; discriminate | split; reflexivity]. Qed.

(** C4, as the code has it.  On each of the five change events the
    broadcast sends [{type: "update", path, event}], serialised, to the
    clients whose [readyState] is [OPEN], in the order of [wss.clients],
    once each, and nothing to any other client. *)
Theorem C4_broadcast_to_open_clients (h : Host) (clients : list Client)
    (k : ChangeKind) (filePath : string) :
  sent (Rev2.on_all h clients (chokidar_event k) filePath) =
    map (fun client =>
           (client_id client,
            JSON.stringify
              [("type", "update");
               ("path", to_url_path (path h)
                          (path_relative (path h) (DOCS_DIR h) filePath));
               ("event", chokidar_event k)]))
        (filter (fun client => ReadyState_eqb (readyState client) OPEN) clients).
Proof.
  destruct k; cbn [chokidar_event]; unfold Rev2.on_all; cbn [String.eqb Ascii.eqb Bool.eqb orb];
    unfold notify; cbn [sent]; apply notify_clients_open.
Qed.

(** * The request handler *)

Lemma includes_shift c s sub :
  JS.includes s sub = true -> JS.includes (String c s) sub = true.
Proof. intros H. cbn [JS.includes]. rewrite H. apply orb_true_r. Qed.

Lemma includes_of_startsWith s sub :
  JS.startsWith s sub = true -> JS.includes s sub = true.
Proof. intros H. destruct s; cbn [JS.includes]; now rewrite H. Qed.

(** The first piece of a split is what the string starts with. *)
Lemma split_head_startsWith sep : forall s p ps,
  JS.split sep s = p :: ps -> JS.startsWith s p = true.
Proof.
  induction s as [|c s IH]; cbn [JS.split]; intros p ps E.
  - injection E as <- _. reflexivity.
  - destruct (Ascii.eqb c sep).
    + injection E as <- _. reflexivity.
    + destruct (JS.split sep s) as [|q qs] eqn:Es.
      * injection E as <- _. cbn [JS.startsWith]. now rewrite Ascii.eqb_refl.
      * injection E as <- _. cbn [JS.startsWith].
        rewrite Ascii.eqb_refl. exact (IH q qs eq_refl).
Qed.

(** Every piece of a split occurs in the string. *)
Lemma split_piece_included sep : forall s x,
  In x (JS.split sep s) -> JS.includes s x = true.
Proof.
  induction s as [|c s IH]; intros x Hx.
  - cbn [JS.split] in Hx. destruct Hx as [<- | []]. reflexivity.
  - destruct (JS.split sep (String c s)) as [|p ps] eqn:E; [destruct Hx|].
    destruct Hx as [<- | Hx].
    + apply includes_of_startsWith. exact (split_head_startsWith _ _ _ _ E).
    + apply includes_shift, IH. cbn [JS.split] in E.
      destruct (Ascii.eqb c sep).
      * injection E as _ <-. exact Hx.
      * destruct (JS.split sep s) as [|q qs]; injection E as _ <-;
          [destruct Hx | now right].
Qed.

Lemma parent_segment_included (requestPath : string) :
  has_parent_segment requestPath -> JS.includes requestPath ".." = true.
Proof. apply split_piece_included. Qed.

(** The guard of lines 269 and 588 answers before anything touches the
    disk. *)
Lemma app_get_forbidden (h : Host) list_directory (requestPath : string) :
  JS.includes requestPath ".." = true ->
  run (app_get h list_directory requestPath) = (Status 403 "Forbidden", []).
Proof. intros H. unfold run, app_get. now rewrite H. Qed.

(** C7. A request path with a parent-directory segment is answered 403
    [Forbidden] by both revisions with an empty access log: the disk is not
    touched, inside the root or outside. *)
Theorem C7_parent_segment_is_forbidden (h : Host) (requestPath : string) :
  has_parent_segment requestPath ->
  run (Rev1.handler h requestPath) = (Status 403 "Forbidden", []) /\
  run (Rev2.handler h requestPath) = (Status 403 "Forbidden", []).
Proof.
  intros H. apply parent_segment_included in H.
  unfold run, Rev1.handler, Rev2.handler, app_get. rewrite H.
  split; reflexivity.
Qed.

Lemma C7_traversal_example :
  run (Rev1.handler Example.host "/../secret.txt") = (Status 403 "Forbidden", []) /\
  run (Rev2.handler Example.host "/../secret.txt") = (Status 403 "Forbidden", []).
Proof.
  apply (C7_parent_segment_is_forbidden Example.host "/../secret.txt").
  unfold has_parent_segment. vm_compute. right. left. reflexivity.
Defined.




(** The files of the example are on the disk, under the root, their request
    paths have no parent-directory segment, and the root's listing links to
    them; all the same these request paths are refused. *)
Lemma dotted_names_are_no_traversal :
  stat (fs Example.dotted_host) (Posix.join "/srv/docs" "/notes..md")
    = Some Example.regular_file /\
  stat (fs Example.dotted_host) (Posix.join "/srv/docs" "/a..b/f.md")
    = Some Example.regular_file /\
  ~ has_parent_segment "/notes..md" /\
  ~ has_parent_segment "/a..b/f.md" /\
  run (Rev2.handler Example.dotted_host "/a..b/f.md") = (Status 403 "Forbidden", []) /\
  (exists page entries,
     fst (run (Rev2.handler Example.dotted_host "/")) = Send page /\
     content page = Listing None "Index of /" entries /\
     In {| icon := IconMarkdown; href := "notes..md"; label := "notes..md" |} entries).
Proof.
  split; [reflexivity|]. split; [reflexivity|]. unfold has_parent_segment.
  split; [vm_compute; intuition discriminate|].
  split; [vm_compute; intuition discriminate|].
  split; [reflexivity|].
  eexists. eexists. split; [reflexivity|]. split; [reflexivity|]. now left.
Qed.

(** A listing shows directories and [.md] files and nothing else. *)
Lemma listing_filters_example :
  list_entries
    [ {| name := "a.md"; dirent_isDirectory := false |};
      {| name := "b.txt"; dirent_isDirectory := false |};
      {| name := "c"; dirent_isDirectory := true |} ] =
  [ {| icon := IconMarkdown; href := "a.md"; label := "a.md" |};
    {| icon := IconFolder; href := "c/"; label := "c" |} ].
Proof. reflexivity. Qed.

Lemma list_entries_shows_directories_and_markdown (files : list Dirent)
    (item : ListItem) :
  In item (list_entries files) ->
  exists file,
    In file files /\ label item = name file /\
    (dirent_isDirectory file = true \/ JS.endsWith (name file) ".md" = true).
Proof.
  induction files as [|file files IH]; cbn [list_entries]; [intros []|].
  destruct (dirent_isDirectory file) eqn:Hdir; cbn [negb andb].
  - intros [<- | Hin].
    + exists file. cbn. auto.
    + destruct (IH Hin) as [f [Hf H]]. exists f. split; [now right | exact H].
  - destruct (JS.endsWith (name file) ".md") eqn:Hmd; cbn [negb].
    + intros [<- | Hin].
      * exists file. cbn. auto.
      * destruct (IH Hin) as [f [Hf H]]. exists f. split; [now right | exact H].
    + intros Hin. destruct (IH Hin) as [f [Hf H]]. exists f. split; [now right | exact H].
Qed.

(** The fallback, whatever the directory branch is: after the two [stat]
    calls the handler goes on with [filePath + ".md"] and its stats. *)
Lemma app_get_md_fallback (h : Host) list_directory (requestPath : string)
    (mdStats : Stats) :
  JS.includes requestPath ".." = false ->
  stat (fs h) (path_join (path h) (DOCS_DIR h) requestPath) = None ->
  JS.endsWith (path_join (path h) (DOCS_DIR h) requestPath) ".md" = false ->
  stat (fs h) (path_join (path h) (DOCS_DIR h) requestPath ++ ".md") = Some mdStats ->
  app_get h list_directory requestPath [] =
    respond h list_directory requestPath
      (path_join (path h) (DOCS_DIR h) requestPath ++ ".md") (Some mdStats)
      [OpStat (path_join (path h) (DOCS_DIR h) requestPath);
       OpStat (path_join (path h) (DOCS_DIR h) requestPath ++ ".md")].
Proof.
  intros Hdots Hmissing Hext Hmd.
  unfold app_get. rewrite Hdots.
  unfold bind at 1. unfold getStats at 1, bind, access, ret.
  rewrite Hmissing. cbn [app md_fallback]. rewrite Hext. cbn [negb].
  unfold getStats, bind, access, ret. rewrite Hmd. reflexivity.
Qed.

(** A regular file that ends in [.md] is read, rendered and sent with its
    path relative to the root as the view identifier. *)
Lemma respond_markdown_file (h : Host) list_directory (requestPath filePath : string)
    (stats : Stats) (log : list FsOp) :
  isDirectory stats = false -> isFile stats = true ->
  JS.endsWith filePath ".md" = true ->
  respond h list_directory requestPath filePath (Some stats) log =
    (Send {| content := Document (marked h (readFile (fs h) filePath));
             title := path_basename (path h) filePath;
             backLink := generateHtml_backLink (relative_url h filePath);
             currentViewPath :=
               to_url_path (path h) (path_relative (path h) (DOCS_DIR h) filePath) |},
     (log ++ [OpReadFile filePath])%list).
Proof.
  intros Hdir Hfile Hend. unfold respond. rewrite Hdir, Hfile.
  unfold serve_file. now rewrite Hend.
Qed.

(** C8. When the candidate [filePath] is not on the disk and does not end
    in [.md] while [filePath + ".md"] is, the handler goes on with the
    latter and its stats after these two [stat] calls; where that is a
    regular file, the answer is its rendered content, and the view
    identifier is its path relative to the root, [.md] included. *)
Theorem C8_md_fallback (h : Host) (requestPath : string) (mdStats : Stats) :
  JS.includes requestPath ".." = false ->
  stat (fs h) (path_join (path h) (DOCS_DIR h) requestPath) = None ->
  JS.endsWith (path_join (path h) (DOCS_DIR h) requestPath) ".md" = false ->
  stat (fs h) (path_join (path h) (DOCS_DIR h) requestPath ++ ".md") = Some mdStats ->
  let filePath := path_join (path h) (DOCS_DIR h) requestPath in
  let mdPath := filePath ++ ".md" in
  Rev2.handler h requestPath [] =
    respond h (Rev2.list_directory h) requestPath mdPath (Some mdStats)
      [OpStat filePath; OpStat mdPath] /\
  (isDirectory mdStats = false -> isFile mdStats = true ->
   run (Rev2.handler h requestPath) =
     (Send {| content := Document (marked h (readFile (fs h) mdPath));
              title := path_basename (path h) mdPath;
              backLink := generateHtml_backLink (relative_url h mdPath);
              currentViewPath :=
                to_url_path (path h) (path_relative (path h) (DOCS_DIR h) mdPath) |},
      [OpStat filePath; OpStat mdPath; OpReadFile mdPath])).
Proof.
  intros Hdots Hmissing Hext Hmd. cbv zeta.
  pose proof (app_get_md_fallback h (Rev2.list_directory h) requestPath mdStats
                Hdots Hmissing Hext Hmd) as Hresolve.
  split; [exact Hresolve|].
  intros Hdir Hfile. unfold run, Rev2.handler. rewrite Hresolve.
  apply respond_markdown_file; try assumption.
  apply JSFacts.endsWith_iff. now eexists.
Qed.

(** Revision 1 has the same fallback. *)
Lemma Rev1_md_fallback (h : Host) (requestPath : string) (mdStats : Stats) :
  JS.includes requestPath ".." = false ->
  stat (fs h) (path_join (path h) (DOCS_DIR h) requestPath) = None ->
  JS.endsWith (path_join (path h) (DOCS_DIR h) requestPath) ".md" = false ->
  stat (fs h) (path_join (path h) (DOCS_DIR h) requestPath ++ ".md") = Some mdStats ->
  Rev1.handler h requestPath [] =
    respond h (Rev1.list_directory h) requestPath
      (path_join (path h) (DOCS_DIR h) requestPath ++ ".md") (Some mdStats)
      [OpStat (path_join (path h) (DOCS_DIR h) requestPath);
       OpStat (path_join (path h) (DOCS_DIR h) requestPath ++ ".md")].
Proof. apply app_get_md_fallback. Qed.

(** The scenario of the specification: only [notes.md] answers to
    [/notes]. *)
Lemma C8_notes_example :
  run (Rev2.handler Example.host "/notes") =
    (Send {| content := Document "<article># Notes</article>";
             title := "notes.md";
             backLink := "/";
             currentViewPath := "notes.md" |},
     [OpStat "/srv/docs/notes"; OpStat "/srv/docs/notes.md";
      OpReadFile "/srv/docs/notes.md"]).
Proof.
  exact (proj2 (C8_md_fallback Example.host "/notes" Example.regular_file
                 eq_refl eq_refl eq_refl eq_refl) eq_refl eq_refl).
Defined.

Module PosixFacts.
Import JS SplitFacts.

Lemma split_free sep : forall p, ~ In sep (list_ascii_of_string p) -> split sep p = [p].
Proof.
  induction p as [|c p IH]; intros Hp; [reflexivity|].
  cbn [split]. destruct (Ascii.eqb_spec c sep) as [-> | Hne].
  - exfalso. apply Hp. now left.
  - rewrite IH; [reflexivity|]. intros H. apply Hp. now right.
Qed.

Lemma split_append_sep sep r : forall p,
  ~ In sep (list_ascii_of_string p) -> split sep (p ++ String sep r) = p :: split sep r.
Proof.
  induction p as [|c p IH]; intros Hp.
  - cbn [append split]. now rewrite Ascii.eqb_refl.
  - cbn [append split]. destruct (Ascii.eqb_spec c sep) as [-> | Hne].
    + exfalso. apply Hp. now left.
    + rewrite IH; [reflexivity|]. intros H. apply Hp. now right.
Qed.

(** Splitting what was joined gives the pieces back. *)
Lemma split_join sep : forall ps,
  ps <> [] -> Forall (fun p => ~ In sep (list_ascii_of_string p)) ps ->
  split sep (join (String sep "") ps) = ps.
Proof.
  induction ps as [|p ps IH]; intros Hne Hfree; [contradiction|].
  inversion Hfree as [|? ? Hp Hps]; subst.
  destruct ps as [|q ps].
  - now apply split_free.
  - change (join (String sep "") (p :: q :: ps))
      with (p ++ String sep (join (String sep "") (q :: ps))).
    rewrite split_append_sep by assumption.
    now rewrite IH.
Qed.

Lemma normalize_pieces_proper allowAboveRoot : forall ps res,
  Forall proper_piece ps ->
  Posix.normalize_pieces allowAboveRoot res ps = (rev res ++ ps)%list.
Proof.
  induction ps as [|p ps IH]; intros res Hps; cbn [Posix.normalize_pieces].
  - now rewrite app_nil_r.
  - inversion Hps as [|? ? [H0 [H1 [H2 _]]] Hps']; subst.
    apply String.eqb_neq in H0, H1, H2. unfold Posix.is_dotdot.
    rewrite H0, H1, H2. cbn [orb].
    rewrite IH by assumption. cbn [rev]. now rewrite <- app_assoc.
Qed.

Lemma resolved_pieces_absolute ps :
  Forall proper_piece ps -> Posix.resolved_pieces (absolute ps) = ps.
Proof.
  intros Hps. unfold Posix.resolved_pieces, absolute.
  destruct ps as [|p ps]; [reflexivity|].
  change ("/" ++ join "/" (p :: ps)) with (String "/" (join "/" (p :: ps))).
  cbn [split]. rewrite Ascii.eqb_refl.
  rewrite split_join.
  - change (Posix.normalize_pieces false [] ("" :: p :: ps))
      with (Posix.normalize_pieces false [] (p :: ps)).
    now apply normalize_pieces_proper.
  - discriminate.
  - eapply Forall_impl; [|exact Hps]. intros a Ha. apply Ha.
Qed.

Lemma drop_common_append : forall rs ss,
  Posix.drop_common rs (rs ++ ss) = ([], ss).
Proof.
  induction rs as [|r rs IH]; intros ss; cbn [Posix.drop_common app].
  - now destruct ss.
  - now rewrite String.eqb_refl.
Qed.


End PosixFacts.

(** * The watcher, with the path it sends *)


(** A directory created two levels down, on the example host. *)
Lemma watcher_example :
  Rev2.on_all Example.host Example.clients
    (chokidar_event directory_created) (absolute ["srv"; "docs"; "guide"; "sub"]) =
  {| console := ["File event addDir: guide/sub"];
     sent := map (fun id => (id, JSON.stringify (update_message "guide/sub" "addDir")))
                 [1; 3] |}.
Proof. reflexivity. Qed.

(** * Where the handler looks on the disk *)

Module ContainmentFacts.
Import JS SplitFacts PosixFacts.

Lemma split_append sep b : forall a,
  split sep (a ++ String sep b) = (split sep a ++ split sep b)%list.
Proof.
  induction a as [|c a IH]; cbn [append split].
  - now rewrite Ascii.eqb_refl.
  - destruct (Ascii.eqb c sep); rewrite IH; [reflexivity|].
    destruct (split sep a) as [|p ps] eqn:E; [now apply split_not_nil in E|].
    reflexivity.
Qed.

Lemma normalize_pieces_app allowAboveRoot : forall xs res ys,
  Posix.normalize_pieces allowAboveRoot res (xs ++ ys) =
  Posix.normalize_pieces allowAboveRoot
    (rev (Posix.normalize_pieces allowAboveRoot res xs)) ys.
Proof.
  induction xs as [|x xs IH]; intros res ys; cbn [app Posix.normalize_pieces].
  - now rewrite rev_involutive.
  - destruct (String.eqb x "" || String.eqb x "."); [apply IH|].
    destruct (Posix.is_dotdot x); [|apply IH].
    destruct res as [|l res]; [apply IH|].
    destruct (Posix.is_dotdot l); apply IH.
Qed.

Lemma normalize_pieces_no_dotdot allowAboveRoot : forall ps res,
  (forall p, In p ps -> p <> "..") ->
  Posix.normalize_pieces allowAboveRoot res ps = (rev res ++ filter named ps)%list.
Proof.
  induction ps as [|p ps IH]; intros res Hps; cbn [Posix.normalize_pieces filter].
  - now rewrite app_nil_r.
  - unfold named at 1.
    assert (Hp : Posix.is_dotdot p = false).
    { apply String.eqb_neq, Hps. now left. }
    rewrite Hp. destruct (String.eqb p "" || String.eqb p "."); cbn [negb].
    + apply IH. intros q Hq. apply Hps. now right.
    + rewrite IH by (intros q Hq; apply Hps; now right).
      cbn [rev]. now rewrite <- app_assoc.
Qed.

Lemma pieces_without_dotdot (requestPath : string) :
  includes requestPath ".." = false ->
  forall p, In p (split "/" requestPath) -> p <> "..".
Proof.
  intros H p Hp ->. apply split_piece_included in Hp. congruence.
Qed.

Lemma named_pieces_proper (s : string) :
  (forall p, In p (split "/" s) -> p <> "..") ->
  Forall proper_piece (filter named (split "/" s)).
Proof.
  intros H. apply Forall_forall. intros p Hp. apply filter_In in Hp.
  destruct Hp as [Hp Hn]. unfold named in Hn.
  apply negb_true_iff, orb_false_iff in Hn. destruct Hn as [H0 H1].
  apply String.eqb_neq in H0, H1. repeat split; auto.
  now apply split_pieces_free with (s := s).
Qed.


(** [path.posix.normalize] of an absolute path writes its resolved pieces
    after a slash, with a final slash only when there is a piece. *)
Lemma normalize_absolute (s : string) :
  startsWith s "/" = true ->
  Posix.normalize s = absolute (Posix.resolved_pieces s) \/
  (Posix.resolved_pieces s <> [] /\
   Posix.normalize s = absolute (Posix.resolved_pieces s) ++ "/").
Proof.
  intros Habs. unfold Posix.normalize.
  destruct (String.eqb_spec s "") as [-> | _]; [discriminate|].
  rewrite Habs. cbn [negb]. fold (Posix.resolved_pieces s).
  destruct (String.eqb_spec (join "/" (Posix.resolved_pieces s)) "") as [E | E].
  - left. unfold absolute. now rewrite E.
  - destruct (endsWith s "/"); [right | now left].
    split; [|reflexivity]. intros E0. apply E. now rewrite E0.
Qed.

Lemma below_root_absolute rs p :
  below_root rs p -> startsWith p "/" = true.
Proof. intros [qs [_ [-> | [_ ->]]]]; reflexivity. Qed.

Lemma below_root_pieces rs p :
  Forall proper_piece rs -> below_root rs p ->
  exists qs, Forall proper_piece qs /\ Posix.resolved_pieces p = (rs ++ qs)%list.
Proof.
  intros Hrs [qs [Hqs Hp]]. exists qs. split; [assumption|].
  assert (Hps : Forall proper_piece (rs ++ qs)) by now apply Forall_app.
  destruct Hp as [-> | [_ ->]].
  - now apply resolved_pieces_absolute.
  - unfold Posix.resolved_pieces.
    rewrite (split_append "/"%char "" (absolute (rs ++ qs))).
    rewrite normalize_pieces_app. fold (Posix.resolved_pieces (absolute (rs ++ qs))).
    rewrite resolved_pieces_absolute by assumption.
    cbn. now rewrite rev_involutive.
Qed.

Lemma below_root_of_normalize rs qs s :
  startsWith s "/" = true -> Forall proper_piece qs ->
  Posix.resolved_pieces s = (rs ++ qs)%list ->
  below_root rs (Posix.normalize s).
Proof.
  intros Habs Hqs Hps. exists qs. split; [assumption|].
  destruct (normalize_absolute s Habs) as [E | [Hne E]]; rewrite Hps in *; auto.
Qed.

(** Joining a path below the root with pieces none of which is [..] stays
    below the root. *)
Lemma join_below_root rs a b :
  Forall proper_piece rs -> below_root rs a ->
  (forall p, In p (split "/" b) -> p <> "..") ->
  below_root rs (Posix.join a b).
Proof.
  intros Hrs Ha Hb.
  pose proof (below_root_absolute _ _ Ha) as Habs.
  destruct (below_root_pieces _ _ Hrs Ha) as [qs [Hqs Hps]].
  unfold Posix.join.
  destruct (String.eqb_spec a "") as [-> | _]; [discriminate|].
  destruct (String.eqb b "").
  - now apply below_root_of_normalize with (qs := qs).
  - apply below_root_of_normalize with (qs := (qs ++ filter named (split "/" b))%list).
    + apply JSFacts.startsWith_iff in Habs. destruct Habs as [r ->]. reflexivity.
    + apply Forall_app. split; [assumption | now apply named_pieces_proper].
    + unfold Posix.resolved_pieces.
      change (a ++ "/" ++ b) with (a ++ String "/" b).
      rewrite split_append, normalize_pieces_app.
      fold (Posix.resolved_pieces a). rewrite Hps.
      rewrite normalize_pieces_no_dotdot by assumption.
      now rewrite rev_involutive, app_assoc.
Qed.

Lemma join_snoc sep x : forall ps,
  ps <> [] -> join sep (ps ++ [x]) = join sep ps ++ sep ++ x.
Proof.
  induction ps as [|p ps IH]; intros Hne; [contradiction|].
  destruct ps as [|q ps]; [reflexivity|].
  change (join sep ((p :: q :: ps) ++ [x]))
    with (p ++ sep ++ join sep ((q :: ps) ++ [x])).
  rewrite IH by discriminate.
  change (join sep (p :: q :: ps)) with (p ++ sep ++ join sep (q :: ps)).
  now rewrite !JSFacts.append_assoc.
Qed.

Lemma join_last_append sep x s : forall ps,
  join sep (ps ++ [x]) ++ s = join sep (ps ++ [x ++ s]).
Proof.
  intros ps. destruct ps as [|p ps]; [reflexivity|].
  rewrite !join_snoc by discriminate.
  now rewrite !JSFacts.append_assoc.
Qed.

Lemma proper_piece_md x :
  ~ In "/"%char (list_ascii_of_string x) -> proper_piece (x ++ ".md").
Proof.
  intros Hx. repeat split.
  - destruct x; discriminate.
  - destruct x as [|c [|d x]]; discriminate.
  - destruct x as [|c [|d [|e x]]]; discriminate.
  - rewrite chars_append, in_app_iff. intros [H | H]; [now apply Hx|].
    cbn in H. intuition discriminate.
Qed.

(** The [.md] fallback of anything below the root but the root itself is
    below the root. *)
Lemma md_below_root rs fp :
  below_root rs fp -> fp <> absolute rs -> below_root rs (fp ++ ".md").
Proof.
  intros [qs [Hqs Hfp]] Hroot. destruct Hfp as [-> | [Hne ->]].
  - destruct (exists_last (l := qs)) as [qs0 [x ->]].
    { intros ->. apply Hroot. now rewrite app_nil_r. }
    apply Forall_app in Hqs. destruct Hqs as [Hqs0 Hx].
    inversion Hx as [|? ? [_ [_ [_ Hfree]]] _]; subst.
    exists (qs0 ++ [(x ++ ".md")%string])%list. split.
    + apply Forall_app. split; [assumption|].
      constructor; [now apply proper_piece_md | constructor].
    + left. unfold absolute. rewrite !app_assoc, JSFacts.append_assoc.
      now rewrite join_last_append.
  - exists (qs ++ [".md"])%list. split.
    + apply Forall_app. split; [assumption|].
      constructor; [|constructor].
      apply (proper_piece_md ""). intros [].
    + left. unfold absolute. rewrite app_assoc, join_snoc by assumption.
      now rewrite !JSFacts.append_assoc.
Qed.

End ContainmentFacts.

(** * Every disk access of the handler is below the root *)

Section Containment.

Variable P : FsOp -> Prop.

Lemma preserves_ret {A} (Q : A -> Prop) (a : A) : Q a -> preserves P Q (ret a).
Proof. intros Ha log Hlog. now split. Qed.

Lemma preserves_bind {A B} (Q : A -> Prop) (R : B -> Prop) (m : M A) (k : A -> M B) :
  preserves P Q m -> (forall a, Q a -> preserves P R (k a)) ->
  preserves P R (bind m k).
Proof.
  intros Hm Hk log Hlog. unfold bind.
  destruct (Hm log Hlog) as [Ha Hlog']. destruct (m log) as [a log'].
  now apply Hk.
Qed.

Lemma preserves_access (op : FsOp) :
  P op -> preserves P (fun _ => True) (access op).
Proof.
  intros Hop log Hlog. split; [exact I|].
  cbn. apply Forall_app. split; [assumption | now constructor].
Qed.

End Containment.

Section HandlerContainment.

Variable h : Host.
Variable rs : list string.
Hypothesis posix_host : path h = Posix.module.
Hypothesis root : DOCS_DIR h = absolute rs.
Hypothesis root_proper : Forall proper_piece rs.
Hypothesis root_exists : stat (fs h) (DOCS_DIR h) <> None.

Let inside := inside_root rs.

Lemma getStats_inside filePath :
  below_root rs filePath ->
  preserves inside (fun stats => stats = stat (fs h) filePath) (getStats h filePath).
Proof.
  intros Hfp. unfold getStats.
  eapply preserves_bind; [apply preserves_access; exact Hfp|].
  intros _ _. now apply preserves_ret.
Qed.

Lemma fs_readFile_inside filePath :
  below_root rs filePath ->
  preserves inside (fun _ => True) (fs_readFile h filePath).
Proof.
  intros Hfp. unfold fs_readFile.
  eapply preserves_bind; [apply preserves_access; exact Hfp|].
  intros _ _. now apply preserves_ret.
Qed.

Lemma md_fallback_inside filePath :
  below_root rs filePath ->
  preserves inside (fun resolved => below_root rs (fst resolved))
    (md_fallback h filePath (stat (fs h) filePath)).
Proof.
  intros Hfp. unfold md_fallback.
  destruct (stat (fs h) filePath) eqn:Hstat; [now apply preserves_ret|].
  destruct (JS.endsWith filePath ".md"); cbn [negb]; [now apply preserves_ret|].
  assert (Hmd : below_root rs (filePath ++ ".md")).
  { apply ContainmentFacts.md_below_root; [assumption|].
    intros E. apply root_exists. now rewrite root, <- E. }
  eapply preserves_bind; [apply getStats_inside; exact Hmd|].
  intros mdStats _. destruct mdStats; now apply preserves_ret.
Qed.

Lemma serve_file_inside filePath :
  below_root rs filePath ->
  preserves inside (fun _ => True) (serve_file h filePath).
Proof.
  intros Hfp. unfold serve_file. destruct (JS.endsWith filePath ".md").
  - eapply preserves_bind; [apply fs_readFile_inside; exact Hfp|].
    intros content _. now apply preserves_ret.
  - destruct (mime_lookup h filePath) as [mimeType|]; [|now apply preserves_ret].
    destruct (JS.truthy mimeType && JS.startsWith mimeType "image/");
      [|now apply preserves_ret].
    unfold res_sendFile.
    eapply preserves_bind; [apply preserves_access; exact Hfp|].
    intros _ _. now apply preserves_ret.
Qed.

Lemma Rev1_list_directory_inside requestPath filePath :
  below_root rs filePath ->
  preserves inside (fun _ => True) (Rev1.list_directory h requestPath filePath).
Proof.
  intros Hfp. unfold Rev1.list_directory, fs_readdir.
  eapply preserves_bind.
  - eapply preserves_bind; [apply preserves_access; exact Hfp|].
    intros _ _. apply preserves_ret with (Q := fun _ => True). exact I.
  - intros files _. now apply preserves_ret.
Qed.

Lemma Rev2_list_directory_inside requestPath filePath :
  below_root rs filePath ->
  preserves inside (fun _ => True) (Rev2.list_directory h requestPath filePath).
Proof.
  intros Hfp. unfold Rev2.list_directory, fs_readdir.
  eapply preserves_bind.
  - eapply preserves_bind; [apply preserves_access; exact Hfp|].
    intros _ _. apply preserves_ret with (Q := fun _ => True). exact I.
  - intros files _. eapply preserves_bind with (Q := fun _ => True).
    + unfold Rev2.index_preview. rewrite posix_host. cbn [path_join Posix.module].
      assert (Hindex : below_root rs (Posix.join filePath "index.md")).
      { apply ContainmentFacts.join_below_root; [assumption | assumption |].
        intros p [<- | []]. discriminate. }
      eapply preserves_bind; [apply getStats_inside; exact Hindex|].
      intros indexStats _. destruct indexStats as [st|]; [|now apply preserves_ret].
      destruct (isFile st); [|now apply preserves_ret].
      eapply preserves_bind; [apply fs_readFile_inside; exact Hindex|].
      intros raw _. now apply preserves_ret.
    + intros indexPreview _. now apply preserves_ret.
Qed.

Lemma app_get_inside list_directory requestPath :
  (forall filePath, below_root rs filePath ->
     preserves inside (fun _ => True) (list_directory requestPath filePath)) ->
  preserves inside (fun _ => True) (app_get h list_directory requestPath).
Proof.
  intros Hlist. unfold app_get.
  destruct (JS.includes requestPath "..") eqn:Hdots; [now apply preserves_ret|].
  rewrite posix_host, root. cbn [path_join Posix.module].
  assert (Hfp : below_root rs (Posix.join (absolute rs) requestPath)).
  { apply ContainmentFacts.join_below_root; [assumption| |].
    - exists []. split; [constructor | left; now rewrite app_nil_r].
    - now apply ContainmentFacts.pieces_without_dotdot. }
  eapply preserves_bind; [apply getStats_inside; exact Hfp|].
  intros stats ->.
  eapply preserves_bind; [apply md_fallback_inside; exact Hfp|].
  intros [filePath stats] Hbelow. cbn [fst snd] in *.
  unfold respond. destruct stats as [st|]; [|now apply preserves_ret].
  destruct (isDirectory st); [now apply Hlist|].
  destruct (isFile st); [now apply serve_file_inside | now apply preserves_ret].
Qed.

(** X13.  On a POSIX host whose root is still on the disk, whatever the request,
    every [stat], [readdir], [readFile] and [sendFile] of the handler
    names the root or a path below it. *)
Theorem handler_stays_below_root (requestPath : string) :
  Forall inside (snd (run (Rev1.handler h requestPath))) /\
  Forall inside (snd (run (Rev2.handler h requestPath))).
Proof.
  split.
  - apply (app_get_inside (Rev1.list_directory h) requestPath); [|constructor].
    intros filePath. apply Rev1_list_directory_inside.
  - apply (app_get_inside (Rev2.list_directory h) requestPath); [|constructor].
    intros filePath. apply Rev2_list_directory_inside.
Qed.

End HandlerContainment.

(** Without the root on the disk the fallback looks beside it: [/.] joins
    to the root itself, and [.md] is appended to the root's own name. *)
Lemma fallback_beside_a_missing_root :
  let h := {| path := Posix.module;
              fs := {| stat := fun _ => None;
                       readdir := fun _ => [];
                       readFile := fun _ => "" |};
              marked := fun s => s;
              mime_lookup := fun _ => None;
              DOCS_DIR := "/srv/docs" |} in
  run (Rev2.handler h "/.") =
    (Status 404 "Not Found", [OpStat "/srv/docs"; OpStat "/srv/docs.md"]).
Proof. reflexivity. Qed.

(** The example host meets the hypotheses: whatever is requested from it,
    nothing outside [/srv/docs] is looked at. *)
Lemma example_host_stays_below_root (requestPath : string) :
  Forall (inside_root ["srv"; "docs"])
    (snd (run (Rev2.handler Example.host requestPath))).
Proof.
  assert (Hroot : Forall proper_piece ["srv"; "docs"])
    by (repeat constructor; try discriminate; cbn; intuition discriminate).
  apply (app_get_inside Example.host ["srv"; "docs"] eq_refl eq_refl Hroot
           ltac:(discriminate) (Rev2.list_directory Example.host) requestPath);
    [|constructor].
  intros filePath. now apply Rev2_list_directory_inside.
Qed.

(** * Which identifiers the page takes for markdown views *)

Lemma includes_append (a s : string) : JS.includes (a ++ s) s = true.
Proof.
  induction a as [|c a IH]; cbn [append].
  - apply includes_of_startsWith, JSFacts.startsWith_iff. exists "".
    now rewrite JSFacts.append_empty_r.
  - now apply includes_shift.
Qed.

Lemma md_suffix_has_no_trailing_slash : forall a b : string, a ++ ".md" <> b ++ "/".
Proof.
  induction a as [|c a IH]; intros b E.
  - destruct b as [|x [|y [|z [|w b]]]]; discriminate.
  - destruct b as [|x b]; cbn [append] in E.
    + destruct a; discriminate.
    + injection E as _ E. now apply IH in E.
Qed.

(** The identifier of a rendered file ends in [.md], so the page takes it
    for a markdown view. *)
Lemma markdown_identifier_is_markdown_view (V : string) :
  JS.endsWith V ".md" = true ->
  JS.replace_trailing_slash V = V /\ Rev2.markdown_view V = true.
Proof.
  intros H. apply JSFacts.endsWith_iff in H. destruct H as [a ->].
  assert (E : JS.replace_trailing_slash (a ++ ".md") = a ++ ".md").
  { apply JSFacts.replace_trailing_slash_canonical, not_true_is_false.
    intros H. apply JSFacts.endsWith_iff in H. destruct H as [b Hb].
    now apply md_suffix_has_no_trailing_slash in Hb. }
  split; [exact E|]. unfold Rev2.markdown_view. rewrite E. apply includes_append.
Qed.

(** The test is on [.md] anywhere in the identifier: a directory whose path
    holds [.md] is taken for a markdown view as well, and its listing is
    left alone when something below it changes. *)
Lemma directory_with_md_in_its_name :
  Rev2.markdown_view "v1.md.d" = true /\
  Rev2.viewMatch "v1.md.d" "v1.md.d/a.md" = false.
Proof. split; reflexivity. Qed.

(** * The command line *)

Lemma length_induction {A} (P : list A -> Prop) :
  (forall l, (forall l', List.length l' < List.length l -> P l') -> P l) ->
  forall l, P l.
Proof.
  intros H l. enough (forall n l', List.length l' < n -> P l') as E.
  { apply (E (S (List.length l))). lia. }
  induction n as [|n IH]; intros l' Hl; [lia|].
  apply H. intros l'' Hl''. apply IH. lia.
Qed.

Lemma port_of_nonzero (p : Process) (v : option string) : port_of p v <> 0%Z.
Proof.
  unfold port_of. destruct v as [s|]; [|discriminate].
  destruct (parseInt p s) as [n|]; [|discriminate].
  destruct (Z.eqb_spec n 0); [discriminate | assumption].
Qed.

Lemma host_of_nonempty (v : option string) : host_of v <> "".
Proof.
  unfold host_of. destruct v as [s|]; [|discriminate].
  unfold JS.truthy. destruct (String.eqb_spec s ""); cbn [negb];
    [discriminate | assumption].
Qed.

(** The loop keeps the port away from zero and the host away from the
    empty string. *)
Lemma parse_args_keeps_port_and_host (p : Process) : forall args o,
  portArg o <> 0%Z -> hostArg o <> "" ->
  portArg (parse_args p args o) <> 0%Z /\ hostArg (parse_args p args o) <> "".
Proof.
  intros args. induction args as [args IH] using length_induction.
  intros o Hport Hhost. destruct args as [|arg rest]; [now split|].
  cbn [parse_args].
  destruct (is_port_flag arg).
  { destruct rest as [|v rest']; cbn [portArg hostArg].
    - split; [apply port_of_nonzero | assumption].
    - apply IH; cbn [List.length portArg hostArg]; [lia | apply port_of_nonzero | assumption]. }
  destruct (is_host_flag arg).
  { destruct rest as [|v rest']; cbn [portArg hostArg].
    - split; [assumption | apply host_of_nonempty].
    - apply IH; cbn [List.length portArg hostArg]; [lia | assumption | apply host_of_nonempty]. }
  destruct (is_dir_flag arg).
  { destruct rest as [|v rest']; cbn [portArg hostArg].
    - now split.
    - apply IH; cbn [List.length portArg hostArg]; [lia | assumption | assumption]. }
  destruct (negb (JS.startsWith arg "-") && negb (dir_given (dirArg o)));
    apply IH; cbn [List.length portArg hostArg]; auto.
Qed.

(** X1.  Whatever the arguments, when the server comes to listen the port is a
    number other than zero, the host is not the empty string, and the
    served directory is on the disk. *)
Theorem start_listens_on_usable_values (p : Process) (pm : PathModule)
    (args : list string) (PORT : Z) (HOST DOCS_DIR : string) :
  start p pm args = Listen PORT HOST DOCS_DIR ->
  PORT <> 0%Z /\ HOST <> "" /\ existsSync p DOCS_DIR = true.
Proof.
  unfold start. cbv zeta.
  destruct (existsSync p (docs_dir p pm (parse_args p args initial_options))) eqn:E;
    cbn [negb]; [|discriminate].
  intros H. injection H as <- <- <-.
  destruct (parse_args_keeps_port_and_host p args initial_options) as [Hp Hh];
    [discriminate | discriminate |].
  repeat split; assumption.
Qed.

Lemma start_example :
  (8080 <> 0)%Z /\ "127.0.0.1" <> "" /\
  existsSync ExampleStart.process "/srv/docs" = true.
Proof.
  apply (start_listens_on_usable_values ExampleStart.process Posix.module
           ["-p"; "8080"; "/srv/docs"; "--host"; "127.0.0.1"]).
  reflexivity.
Defined.

(** A flag at the very end has no value: [-p] and [-h] then put the
    default back, whatever was given before, and [-d] forgets the
    directory. *)
Lemma flag_without_value_example :
  start ExampleStart.process Posix.module ["-p"; "8080"; "/srv/docs"; "-p"]
    = Listen 3000 "0.0.0.0" "/srv/docs" /\
  start ExampleStart.process Posix.module ["/srv/docs"; "-h"; "::1"; "-d"]
    = Listen 3000 "::1" "/app/docs".
Proof. split; reflexivity. Qed.

(** X2.  Arguments among which there is no [-p] or [--port] leave the port as it
    was, and the same holds of [-h], [--host] and the host: a value after
    another flag is never read as a flag. *)
Theorem parse_args_frame (p : Process) (args : list string) (o : Options) :
  ((forall arg, In arg args -> is_port_flag arg = false) ->
   portArg (parse_args p args o) = portArg o) /\
  ((forall arg, In arg args -> is_host_flag arg = false) ->
   hostArg (parse_args p args o) = hostArg o).
Proof.
  revert o. induction args as [args IH] using length_induction. intros o.
  destruct args as [|arg rest]; [now split|].
  assert (Hrest : forall o', 
    ((forall a, In a (arg :: rest) -> is_port_flag a = false) ->
       portArg (parse_args p rest o') = portArg o') /\
    ((forall a, In a (arg :: rest) -> is_host_flag a = false) ->
       hostArg (parse_args p rest o') = hostArg o')).
  { intros o'. destruct (IH rest (Nat.lt_succ_diag_r _) o') as [H1 H2].
    split; intros H; [apply H1 | apply H2]; intros a Ha; apply H; now right. }
  assert (Hrest' : forall v rest' o', rest = v :: rest' ->
    ((forall a, In a (arg :: rest) -> is_port_flag a = false) ->
       portArg (parse_args p rest' o') = portArg o') /\
    ((forall a, In a (arg :: rest) -> is_host_flag a = false) ->
       hostArg (parse_args p rest' o') = hostArg o')).
  { intros v rest' o' ->. destruct (IH rest') with (o := o') as [H1 H2];
      [cbn [List.length]; lia|].
    split; intros H; [apply H1 | apply H2]; intros a Ha; apply H; right; now right. }
  cbn [parse_args].
  destruct (is_port_flag arg) eqn:Eport.
  { split.
    - intros H. rewrite (H arg (or_introl eq_refl)) in Eport. discriminate.
    - intros H. destruct rest as [|v rest']; [reflexivity|].
      now rewrite (proj2 (Hrest' v rest' _ eq_refl) H). }
  destruct (is_host_flag arg) eqn:Ehost.
  { split.
    - intros H. destruct rest as [|v rest']; [reflexivity|].
      now rewrite (proj1 (Hrest' v rest' _ eq_refl) H).
    - intros H. rewrite (H arg (or_introl eq_refl)) in Ehost. discriminate. }
  destruct (is_dir_flag arg).
  { split; intros H; (destruct rest as [|v rest']; [reflexivity|]).
    - now rewrite (proj1 (Hrest' v rest' _ eq_refl) H).
    - now rewrite (proj2 (Hrest' v rest' _ eq_refl) H). }
  destruct (negb (JS.startsWith arg "-") && negb (dir_given (dirArg o)));
    split; intros H.
  - now rewrite (proj1 (Hrest _) H).
  - now rewrite (proj2 (Hrest _) H).
  - now apply (proj1 (Hrest _)).
  - now apply (proj2 (Hrest _)).
Qed.

(** X3.  Once a directory is set, only [-d] or [--dir] changes it: arguments
    without a dash come too late. *)
Theorem parse_args_keeps_the_directory (p : Process) (args : list string)
    (o : Options) :
  dir_given (dirArg o) = true ->
  (forall arg, In arg args -> is_dir_flag arg = false) ->
  dirArg (parse_args p args o) = dirArg o.
Proof.
  revert o. induction args as [args IH] using length_induction.
  intros o Hset Hno. destruct args as [|arg rest]; [reflexivity|].
  cbn [parse_args].
  assert (Hrest : forall l, (exists pre, arg :: rest = pre ++ l)%list ->
            forall a, In a l -> is_dir_flag a = false).
  { intros l [pre E] a Ha. apply Hno. rewrite E. apply in_or_app. now right. }
  destruct (is_port_flag arg).
  { destruct rest as [|v rest']; [reflexivity|].
    rewrite IH; [reflexivity | cbn [List.length]; lia | assumption |].
    apply Hrest. now exists [arg; v]. }
  destruct (is_host_flag arg).
  { destruct rest as [|v rest']; [reflexivity|].
    rewrite IH; [reflexivity | cbn [List.length]; lia | assumption |].
    apply Hrest. now exists [arg; v]. }
  destruct (is_dir_flag arg) eqn:Edir.
  { rewrite (Hno arg (or_introl eq_refl)) in Edir. discriminate. }
  rewrite Hset. cbn [negb]. rewrite andb_false_r.
  apply IH; [cbn [List.length]; lia | assumption |].
  apply Hrest. now exists [arg].
Qed.

Lemma parse_args_keeps_the_directory_example :
  dirArg (parse_args ExampleStart.process ["other"; "-p"; "80"; "third"]
            {| portArg := 3000; hostArg := "0.0.0.0"; dirArg := Some "docs" |})
  = Some "docs".
Proof.
  apply (parse_args_keeps_the_directory ExampleStart.process
           ["other"; "-p"; "80"; "third"]
           {| portArg := 3000; hostArg := "0.0.0.0"; dirArg := Some "docs" |}).
  - reflexivity.
  - intros arg H. cbn in H.
    destruct H as [<- | [<- | [<- | [<- | []]]]]; reflexivity.
Defined.

Lemma positionals_keep_the_directory (p : Process) : forall args o,
  (forall arg, In arg args -> is_flag arg = false) ->
  dir_given (dirArg o) = true ->
  dirArg (parse_args p args o) = dirArg o.
Proof.
  induction args as [|arg rest IH]; intros o Hno Hset; [reflexivity|].
  cbn [parse_args].
  pose proof (Hno arg (or_introl eq_refl)) as Hflag. unfold is_flag in Hflag.
  apply orb_false_iff in Hflag. destruct Hflag as [Hflag Hd].
  apply orb_false_iff in Hflag. destruct Hflag as [Hp Hh].
  rewrite Hp, Hh, Hd, Hset. cbn [negb]. rewrite andb_false_r.
  apply IH; [intros a Ha; apply Hno; now right | assumption].
Qed.

(** X4.  Without any flag among the arguments the served directory is the
    first argument that has no leading dash and is not empty, resolved; with
    no such argument it is [docs] beside the program. *)
Theorem docs_dir_is_the_first_positional (p : Process) (pm : PathModule)
    (args : list string) :
  (forall arg, In arg args -> is_flag arg = false) ->
  docs_dir p pm (parse_args p args initial_options) =
  match find (fun arg => positional arg && JS.truthy arg) args with
  | Some d => path_resolve p d
  | None => path_join pm (dirname p) "docs"
  end.
Proof.
  intros Hno.
  enough (forall o, dir_given (dirArg o) = false ->
            docs_dir p pm (parse_args p args o) =
            match find (fun arg => positional arg && JS.truthy arg) args with
            | Some d => path_resolve p d
            | None => path_join pm (dirname p) "docs"
            end) as E by now apply E.
  induction args as [|arg rest IH]; intros o Hdir.
  - cbn [parse_args find]. unfold docs_dir. unfold dir_given in Hdir.
    destruct (dirArg o) as [d|]; [now rewrite Hdir | reflexivity].
  - cbn [parse_args find].
    pose proof (Hno arg (or_introl eq_refl)) as Hflag. unfold is_flag in Hflag.
    apply orb_false_iff in Hflag. destruct Hflag as [Hflag Hd].
    apply orb_false_iff in Hflag. destruct Hflag as [Hp Hh].
    rewrite Hp, Hh, Hd, Hdir. cbn [negb]. rewrite andb_true_r.
    fold (positional arg). destruct (positional arg); cbn [andb].
    + destruct (JS.truthy arg) eqn:Ht.
      * assert (Hkeep : dirArg (parse_args p rest
                  {| portArg := portArg o; hostArg := hostArg o; dirArg := Some arg |})
                = Some arg).
        { apply (positionals_keep_the_directory p rest
                   {| portArg := portArg o; hostArg := hostArg o; dirArg := Some arg |}).
          - intros a Ha. apply Hno. now right.
          - exact Ht. }
        unfold docs_dir. now rewrite Hkeep, Ht.
      * apply IH; [intros a Ha; apply Hno; now right | exact Ht].
    + apply IH; [intros a Ha; apply Hno; now right | exact Hdir].
Qed.

Lemma docs_dir_example :
  docs_dir ExampleStart.process Posix.module
    (parse_args ExampleStart.process [""; "--verbose"; "/srv/docs"; "later"]
       initial_options)
  = "/srv/docs".
Proof.
  apply (docs_dir_is_the_first_positional ExampleStart.process Posix.module
           [""; "--verbose"; "/srv/docs"; "later"]).
  intros arg H. cbn in H.
  destruct H as [<- | [<- | [<- | [<- | []]]]]; reflexivity.
Defined.

(** * What the handler answers *)

Lemma list_entries_filter (files : list Dirent) :
  list_entries files = map entry_of (filter listed files).
Proof.
  induction files as [|file files IH]; [reflexivity|].
  cbn [list_entries filter]. unfold listed at 1.
  destruct (dirent_isDirectory file) eqn:Hdir; cbn [negb andb orb].
  - cbn [map]. rewrite IH. f_equal. unfold entry_of. now rewrite Hdir.
  - destruct (JS.endsWith (name file) ".md"); cbn [negb].
    + cbn [map]. rewrite IH. f_equal. unfold entry_of. now rewrite Hdir.
    + exact IH.
Qed.

(** After the guard the handler answers from what [resolve] finds. *)
Lemma app_get_resolves (h : Host) list_directory (requestPath : string) :
  JS.includes requestPath ".." = false ->
  exists log,
    app_get h list_directory requestPath [] =
    match resolve h requestPath with
    | Some (filePath, stats) =>
        respond h list_directory requestPath filePath (Some stats) log
    | None => (Status 404 "Not Found", log)
    end.
Proof.
  intros Hdots. unfold app_get, resolve. rewrite Hdots. cbv zeta.
  unfold bind at 1. unfold getStats at 1, bind, access, ret. cbn [app].
  destruct (stat (fs h) (path_join (path h) (DOCS_DIR h) requestPath)) as [st|] eqn:E.
  - cbn [md_fallback]. unfold ret. cbn [fst snd]. now eexists.
  - cbn [md_fallback].
    destruct (JS.endsWith (path_join (path h) (DOCS_DIR h) requestPath) ".md");
      cbn [negb].
    + unfold ret. cbn [fst snd respond]. now eexists.
    + unfold getStats, bind, access, ret. cbn [app].
      destruct (stat (fs h) (path_join (path h) (DOCS_DIR h) requestPath ++ ".md"));
        cbn [fst snd respond]; unfold ret; now eexists.
Qed.

Lemma Rev1_list_directory_sends (h : Host) (requestPath filePath : string)
    (log : list FsOp) :
  Rev1.list_directory h requestPath filePath log =
  (Send (generateHtml
           (Listing None ("Index of " ++ requestPath)
              (parent_entry requestPath ++
               map entry_of (filter listed (readdir (fs h) filePath)))%list)
           ("Index of " ++ requestPath) (relative_url h filePath)),
   (log ++ [OpReaddir filePath])%list).
Proof.
  unfold Rev1.list_directory, fs_readdir, bind, access, ret.
  now rewrite list_entries_filter.
Qed.

Lemma Rev2_list_directory_sends (h : Host) (requestPath filePath : string)
    (log : list FsOp) :
  Rev2.list_directory h requestPath filePath log =
  (Send (generateHtml
           (Listing (fst (Rev2.index_preview h filePath (log ++ [OpReaddir filePath])%list))
              ("Index of " ++ requestPath)
              (parent_entry requestPath ++
               map entry_of (filter listed (readdir (fs h) filePath)))%list)
           ("Index of " ++ requestPath) (relative_url h filePath)),
   snd (Rev2.index_preview h filePath (log ++ [OpReaddir filePath])%list)).
Proof.
  unfold Rev2.list_directory, fs_readdir, bind, access, ret.
  destruct (Rev2.index_preview h filePath (log ++ [OpReaddir filePath])%list).
  now rewrite list_entries_filter.
Qed.

(** What [respond] can answer, by the kind of what was found. *)
Lemma respond_kinds (h : Host) list_directory (requestPath filePath : string)
    (stats : Stats) (log : list FsOp) :
  (isDirectory stats = true /\
   respond h list_directory requestPath filePath (Some stats) log =
   list_directory requestPath filePath log) \/
  (isDirectory stats = false /\ isFile stats = true /\
   JS.endsWith filePath ".md" = true /\
   exists page log',
     respond h list_directory requestPath filePath (Some stats) log = (Send page, log')) \/
  (isDirectory stats = false /\ isFile stats = true /\
   JS.endsWith filePath ".md" = false /\
   ((exists mimeType,
       mime_lookup h filePath = Some mimeType /\
       JS.startsWith mimeType "image/" = true /\
       respond h list_directory requestPath filePath (Some stats) log =
       (SendFile filePath, (log ++ [OpSendFile filePath])%list)) \/
    ((forall mimeType, mime_lookup h filePath = Some mimeType ->
        JS.startsWith mimeType "image/" = false) /\
     respond h list_directory requestPath filePath (Some stats) log =
     (Status 403 "Only markdown files and images are served.", log)))) \/
  (isDirectory stats = false /\ isFile stats = false /\
   respond h list_directory requestPath filePath (Some stats) log = (NoResponse, log)).
Proof.
  unfold respond. destruct (isDirectory stats); [now left | right].
  destruct (isFile stats); [|right; right; now repeat split].
  unfold serve_file. destruct (JS.endsWith filePath ".md").
  - left. repeat split. unfold fs_readFile, bind, access, ret. now eexists; eexists.
  - right. left. repeat split.
    destruct (mime_lookup h filePath) as [mimeType|];
      [|right; split; [discriminate | reflexivity]].
    destruct (JS.startsWith mimeType "image/") eqn:E.
    + assert (Ht : JS.truthy mimeType = true) by (destruct mimeType; [discriminate E | reflexivity]).
      rewrite Ht. cbn [andb]. left. exists mimeType. now repeat split.
    + rewrite andb_false_r. right. split; [|reflexivity].
      intros m Hm. injection Hm as <-. exact E.
Qed.

Lemma resolve_found (h : Host) (requestPath filePath : string) (stats : Stats) :
  resolve h requestPath = Some (filePath, stats) ->
  stat (fs h) filePath = Some stats /\
  (filePath = path_join (path h) (DOCS_DIR h) requestPath \/
   (filePath = path_join (path h) (DOCS_DIR h) requestPath ++ ".md" /\
    stat (fs h) (path_join (path h) (DOCS_DIR h) requestPath) = None /\
    JS.endsWith (path_join (path h) (DOCS_DIR h) requestPath) ".md" = false)).
Proof.
  unfold resolve. cbv zeta.
  destruct (stat (fs h) (path_join (path h) (DOCS_DIR h) requestPath)) as [st|] eqn:E.
  - intros H. injection H as <- <-. split; [exact E | now left].
  - destruct (JS.endsWith (path_join (path h) (DOCS_DIR h) requestPath) ".md") eqn:Hext;
      [discriminate|].
    destruct (stat (fs h) (path_join (path h) (DOCS_DIR h) requestPath ++ ".md"))
      as [st|] eqn:Emd; [|discriminate].
    intros H. injection H as <- <-. split; [exact Emd | right; now repeat split].
Qed.

Lemma resolve_not_found (h : Host) (requestPath : string) :
  resolve h requestPath = None <->
  stat (fs h) (path_join (path h) (DOCS_DIR h) requestPath) = None /\
  (JS.endsWith (path_join (path h) (DOCS_DIR h) requestPath) ".md" = true \/
   stat (fs h) (path_join (path h) (DOCS_DIR h) requestPath ++ ".md") = None).
Proof.
  unfold resolve. cbv zeta.
  destruct (stat (fs h) (path_join (path h) (DOCS_DIR h) requestPath)) as [st|].
  - split; [discriminate | intros [H _]; discriminate].
  - destruct (JS.endsWith (path_join (path h) (DOCS_DIR h) requestPath) ".md").
    + split; auto.
    + destruct (stat (fs h) (path_join (path h) (DOCS_DIR h) requestPath ++ ".md")).
      * split; [discriminate | intros [_ [H | H]]; discriminate].
      * split; auto.
Qed.

Section Answers.

Variable h : Host.
Variable list_directory : string -> string -> M Response.
Hypothesis list_directory_sends : forall requestPath filePath log,
  exists page log', list_directory requestPath filePath log = (Send page, log').

Lemma app_get_not_found_iff (requestPath : string) :
  fst (run (app_get h list_directory requestPath)) = Status 404 "Not Found" <->
  JS.includes requestPath ".." = false /\
  stat (fs h) (path_join (path h) (DOCS_DIR h) requestPath) = None /\
  (JS.endsWith (path_join (path h) (DOCS_DIR h) requestPath) ".md" = true \/
   stat (fs h) (path_join (path h) (DOCS_DIR h) requestPath ++ ".md") = None).
Proof.
  rewrite <- resolve_not_found. unfold run.
  destruct (JS.includes requestPath "..") eqn:Hdots.
  - unfold app_get. rewrite Hdots. cbn. split; [discriminate | intros [H _]; discriminate].
  - destruct (app_get_resolves h list_directory requestPath Hdots) as [log E].
    rewrite E. destruct (resolve h requestPath) as [[filePath stats]|].
    + split; [|intros [_ H]; discriminate]. intros H. exfalso.
      destruct (respond_kinds h list_directory requestPath filePath stats log)
        as [[_ R] | [[_ [_ [_ [page [log' R]]]]] | [[_ [_ [_ [[m [_ [_ R]]] | [_ R]]]]] | [_ [_ R]]]]];
        rewrite R in H; try discriminate.
      destruct (list_directory_sends requestPath filePath log) as [page [log' S]].
      rewrite S in H. discriminate.
    + cbn. split; auto.
Qed.

Lemma app_get_raw_is_image (requestPath p : string) :
  fst (run (app_get h list_directory requestPath)) = SendFile p ->
  p = path_join (path h) (DOCS_DIR h) requestPath /\
  JS.includes requestPath ".." = false /\
  JS.endsWith p ".md" = false /\
  exists stats mimeType,
    stat (fs h) p = Some stats /\ isDirectory stats = false /\ isFile stats = true /\
    mime_lookup h p = Some mimeType /\ JS.startsWith mimeType "image/" = true.
Proof.
  unfold run. intros H.
  destruct (JS.includes requestPath "..") eqn:Hdots.
  { unfold app_get in H. rewrite Hdots in H. discriminate. }
  destruct (app_get_resolves h list_directory requestPath Hdots) as [log E].
  rewrite E in H. destruct (resolve h requestPath) as [[filePath stats]|] eqn:Hres;
    [|discriminate].
  destruct (resolve_found h requestPath filePath stats Hres) as [Hstat Hwhich].
  destruct (respond_kinds h list_directory requestPath filePath stats log)
    as [[_ R] | [[_ [_ [_ [page [log' R]]]]] | [[Hd [Hf [Hext [[m [Hm [Hi R]]] | [Hno R]]]]] | [_ [_ R]]]]];
    rewrite R in H; try discriminate.
  - destruct (list_directory_sends requestPath filePath log) as [page [log' S]].
    rewrite S in H. discriminate.
  - injection H as <-. split.
    + destruct Hwhich as [-> | [-> _]]; [reflexivity|].
      exfalso. assert (JS.endsWith (path_join (path h) (DOCS_DIR h) requestPath ++ ".md") ".md" = true)
        by (apply JSFacts.endsWith_iff; now eexists). congruence.
    + repeat split; try assumption. exists stats, m. now repeat split.
Qed.

Lemma app_get_forbidden_kinds (requestPath body : string) :
  fst (run (app_get h list_directory requestPath)) = Status 403 body ->
  (body = "Forbidden" /\ JS.includes requestPath ".." = true) \/
  (body = "Only markdown files and images are served." /\
   JS.includes requestPath ".." = false /\
   JS.endsWith (path_join (path h) (DOCS_DIR h) requestPath) ".md" = false /\
   (forall mimeType,
      mime_lookup h (path_join (path h) (DOCS_DIR h) requestPath) = Some mimeType ->
      JS.startsWith mimeType "image/" = false) /\
   exists stats,
     stat (fs h) (path_join (path h) (DOCS_DIR h) requestPath) = Some stats /\
     isDirectory stats = false /\ isFile stats = true).
Proof.
  unfold run. intros H.
  destruct (JS.includes requestPath "..") eqn:Hdots.
  { unfold app_get in H. rewrite Hdots in H. injection H as <-. now left. }
  right.
  destruct (app_get_resolves h list_directory requestPath Hdots) as [log E].
  rewrite E in H. destruct (resolve h requestPath) as [[filePath stats]|] eqn:Hres;
    [|discriminate].
  destruct (resolve_found h requestPath filePath stats Hres) as [Hstat Hwhich].
  destruct (respond_kinds h list_directory requestPath filePath stats log)
    as [[_ R] | [[_ [_ [_ [page [log' R]]]]] | [[Hd [Hf [Hext [[m [Hm [Hi R]]] | [Hno R]]]]] | [_ [_ R]]]]];
    rewrite R in H; try discriminate.
  - destruct (list_directory_sends requestPath filePath log) as [page [log' S]].
    rewrite S in H. discriminate.
  - injection H as <-. split; [reflexivity|]. split; [reflexivity|].
    destruct Hwhich as [-> | [-> _]].
    + split; [assumption|]. split; [assumption|]. exists stats. now repeat split.
    + exfalso. assert (JS.endsWith (path_join (path h) (DOCS_DIR h) requestPath ++ ".md") ".md" = true)
        by (apply JSFacts.endsWith_iff; now eexists). congruence.
Qed.

End Answers.

Lemma Rev1_list_directory_always_sends (h : Host) :
  forall requestPath filePath log,
    exists page log', Rev1.list_directory h requestPath filePath log = (Send page, log').
Proof. intros. rewrite Rev1_list_directory_sends. now eexists; eexists. Qed.

Lemma Rev2_list_directory_always_sends (h : Host) :
  forall requestPath filePath log,
    exists page log', Rev2.list_directory h requestPath filePath log = (Send page, log').
Proof. intros. rewrite Rev2_list_directory_sends. now eexists; eexists. Qed.

(** X8.  The handler answers 404 exactly when the request passes the guard,
    the joined path is not on the disk, and the path with [.md] appended is
    not tried (the path ends in [.md] already) or is not there either. *)
Theorem not_found_exactly_when_nothing_resolves (h : Host) (requestPath : string) :
  (fst (run (Rev1.handler h requestPath)) = Status 404 "Not Found" <->
   JS.includes requestPath ".." = false /\
   stat (fs h) (path_join (path h) (DOCS_DIR h) requestPath) = None /\
   (JS.endsWith (path_join (path h) (DOCS_DIR h) requestPath) ".md" = true \/
    stat (fs h) (path_join (path h) (DOCS_DIR h) requestPath ++ ".md") = None)) /\
  (fst (run (Rev2.handler h requestPath)) = Status 404 "Not Found" <->
   JS.includes requestPath ".." = false /\
   stat (fs h) (path_join (path h) (DOCS_DIR h) requestPath) = None /\
   (JS.endsWith (path_join (path h) (DOCS_DIR h) requestPath) ".md" = true \/
    stat (fs h) (path_join (path h) (DOCS_DIR h) requestPath ++ ".md") = None)).
Proof.
  split; apply app_get_not_found_iff.
  - apply Rev1_list_directory_always_sends.
  - apply Rev2_list_directory_always_sends.
Qed.

(** X9.  What the handler sends as raw bytes is the requested path itself, a
    regular file that does not end in [.md] and whose type, by
    [mime.lookup], starts with [image/]. *)
Theorem raw_answers_are_images (h : Host) (requestPath p : string) :
  fst (run (Rev2.handler h requestPath)) = SendFile p ->
  p = path_join (path h) (DOCS_DIR h) requestPath /\
  JS.includes requestPath ".." = false /\
  JS.endsWith p ".md" = false /\
  exists stats mimeType,
    stat (fs h) p = Some stats /\ isDirectory stats = false /\ isFile stats = true /\
    mime_lookup h p = Some mimeType /\ JS.startsWith mimeType "image/" = true.
Proof. apply app_get_raw_is_image. apply Rev2_list_directory_always_sends. Qed.

(** X10.  A 403 is one of two: [Forbidden] for two dots in the request path, or
    the refusal of a regular file that is neither markdown nor served as an
    image. *)
Theorem forbidden_answers (h : Host) (requestPath body : string) :
  fst (run (Rev2.handler h requestPath)) = Status 403 body ->
  (body = "Forbidden" /\ JS.includes requestPath ".." = true) \/
  (body = "Only markdown files and images are served." /\
   JS.includes requestPath ".." = false /\
   JS.endsWith (path_join (path h) (DOCS_DIR h) requestPath) ".md" = false /\
   (forall mimeType,
      mime_lookup h (path_join (path h) (DOCS_DIR h) requestPath) = Some mimeType ->
      JS.startsWith mimeType "image/" = false) /\
   exists stats,
     stat (fs h) (path_join (path h) (DOCS_DIR h) requestPath) = Some stats /\
     isDirectory stats = false /\ isFile stats = true).
Proof. apply app_get_forbidden_kinds. apply Rev2_list_directory_always_sends. Qed.

Lemma raw_answers_example :
  "/srv/docs/logo.png" = Posix.join "/srv/docs" "/logo.png" /\
  JS.includes "/logo.png" ".." = false /\
  JS.endsWith "/srv/docs/logo.png" ".md" = false /\
  exists stats mimeType,
    stat ExampleSite.disk "/srv/docs/logo.png" = Some stats /\
    isDirectory stats = false /\ isFile stats = true /\
    mime_lookup ExampleSite.host "/srv/docs/logo.png" = Some mimeType /\
    JS.startsWith mimeType "image/" = true.
Proof.
  apply (raw_answers_are_images ExampleSite.host "/logo.png" "/srv/docs/logo.png").
  reflexivity.
Defined.

Lemma forbidden_answers_example :
  ("Only markdown files and images are served." = "Forbidden" /\
   JS.includes "/data.txt" ".." = true) \/
  ("Only markdown files and images are served."
     = "Only markdown files and images are served." /\
   JS.includes "/data.txt" ".." = false /\
   JS.endsWith (Posix.join "/srv/docs" "/data.txt") ".md" = false /\
   (forall mimeType,
      mime_lookup ExampleSite.host (Posix.join "/srv/docs" "/data.txt") = Some mimeType ->
      JS.startsWith mimeType "image/" = false) /\
   exists stats,
     stat ExampleSite.disk (Posix.join "/srv/docs" "/data.txt") = Some stats /\
     isDirectory stats = false /\ isFile stats = true).
Proof.
  apply (forbidden_answers ExampleSite.host "/data.txt"
           "Only markdown files and images are served.").
  reflexivity.
Defined.

(** X11.  A path that is on the disk and is neither a directory nor a regular
    file (a socket, a pipe, a device) gets no answer at all: the handler
    returns after the one [stat] without sending anything. *)
Theorem special_file_gets_no_answer (h : Host) (requestPath : string) (stats : Stats) :
  JS.includes requestPath ".." = false ->
  stat (fs h) (path_join (path h) (DOCS_DIR h) requestPath) = Some stats ->
  isDirectory stats = false -> isFile stats = false ->
  run (Rev1.handler h requestPath) =
    (NoResponse, [OpStat (path_join (path h) (DOCS_DIR h) requestPath)]) /\
  run (Rev2.handler h requestPath) =
    (NoResponse, [OpStat (path_join (path h) (DOCS_DIR h) requestPath)]).
Proof.
  intros Hdots Hstat Hdir Hfile.
  unfold run, Rev1.handler, Rev2.handler, app_get. rewrite Hdots.
  unfold bind at 1 3. unfold getStats at 1 2, bind, access, ret.
  rewrite Hstat. cbn [app md_fallback]. unfold ret. cbn [fst snd respond].
  rewrite Hdir, Hfile. split; reflexivity.
Qed.

Lemma special_file_example :
  run (Rev1.handler ExampleSite.host "/ctl") = (NoResponse, [OpStat "/srv/docs/ctl"]) /\
  run (Rev2.handler ExampleSite.host "/ctl") = (NoResponse, [OpStat "/srv/docs/ctl"]).
Proof.
  apply (special_file_gets_no_answer ExampleSite.host "/ctl" ExampleSite.special);
    reflexivity.
Defined.

(** X6.  A request that finds a directory is answered with its listing: the
    entry [..] unless the request path is [/] itself, then, in the order of
    [readdir], one entry for each directory (linked with a final slash) and
    each file whose name ends in [.md], and no entry for anything else.
    The heading and the title name the request path, the view identifier is
    the directory's path relative to the root, and only revision 2 may add
    a preview. *)
Theorem directory_is_listed (h : Host) (requestPath : string) (stats : Stats) :
  JS.includes requestPath ".." = false ->
  stat (fs h) (path_join (path h) (DOCS_DIR h) requestPath) = Some stats ->
  isDirectory stats = true ->
  let filePath := path_join (path h) (DOCS_DIR h) requestPath in
  let entries :=
    ((if String.eqb requestPath "/" then []
      else [{| icon := IconParent; href := ".."; label := ".." |}]) ++
     map entry_of (filter listed (readdir (fs h) filePath)))%list in
  let view := to_url_path (path h) (path_relative (path h) (DOCS_DIR h) filePath) in
  fst (run (Rev1.handler h requestPath)) =
    Send {| content := Listing None ("Index of " ++ requestPath) entries;
            title := "Index of " ++ requestPath;
            backLink := generateHtml_backLink view;
            currentViewPath := view |} /\
  exists indexPreview,
    fst (run (Rev2.handler h requestPath)) =
      Send {| content := Listing indexPreview ("Index of " ++ requestPath) entries;
              title := "Index of " ++ requestPath;
              backLink := generateHtml_backLink view;
              currentViewPath := view |}.
Proof.
  intros Hdots Hstat Hdir. cbv zeta.
  assert (Hparent : parent_entry requestPath =
            if String.eqb requestPath "/" then []
            else [{| icon := IconParent; href := ".."; label := ".." |}]).
  { unfold parent_entry. now destruct (String.eqb requestPath "/"). }
  unfold run, Rev1.handler, Rev2.handler, app_get. rewrite Hdots.
  unfold bind at 1 3. unfold getStats at 1 2, bind, access, ret.
  rewrite Hstat. cbn [app md_fallback]. unfold ret. cbn [fst snd respond].
  rewrite Hdir. rewrite Rev1_list_directory_sends, Rev2_list_directory_sends.
  rewrite Hparent. split; [reflexivity|]. eexists. reflexivity.
Qed.

Lemma directory_listing_example :
  fst (run (Rev1.handler ExampleSite.host "/")) =
    Send {| content :=
              Listing None "Index of /"
                [ {| icon := IconFolder; href := "guide/"; label := "guide" |} ];
            title := "Index of /";
            backLink := "";
            currentViewPath := "" |} /\
  exists indexPreview,
    fst (run (Rev2.handler ExampleSite.host "/")) =
      Send {| content :=
                Listing indexPreview "Index of /"
                  [ {| icon := IconFolder; href := "guide/"; label := "guide" |} ];
              title := "Index of /";
              backLink := "";
              currentViewPath := "" |}.
Proof.
  exact (directory_is_listed ExampleSite.host "/" Example.directory
           eq_refl eq_refl eq_refl).
Defined.

(** * The index preview *)

(** Joining the first pieces gives the beginning of the joined whole. *)
Lemma join_firstn_prefix (sep : string) : forall (ps : list string) (n : nat),
  JS.startsWith (JS.join sep ps) (JS.join sep (firstn n ps)) = true.
Proof.
  induction ps as [|p ps IH]; intros n.
  - destruct n; reflexivity.
  - destruct n as [|n]; [apply JSFacts.startsWith_empty|].
    cbn [firstn]. destruct ps as [|q ps].
    + destruct n; cbn [firstn JS.join]; apply JSFacts.startsWith_iff; exists "";
        now rewrite JSFacts.append_empty_r.
    + change (JS.join sep (p :: q :: ps)) with (p ++ sep ++ JS.join sep (q :: ps)).
      specialize (IH n). apply JSFacts.startsWith_iff in IH. destruct IH as [r Hr].
      apply JSFacts.startsWith_iff.
      destruct (firstn n (q :: ps)) as [|q' ps'] eqn:E.
      * cbn [JS.join]. now eexists.
      * change (JS.join sep (p :: q' :: ps')) with (p ++ sep ++ JS.join sep (q' :: ps')).
        exists r. rewrite Hr. now rewrite !JSFacts.append_assoc.
Qed.

Lemma first_lines_spec (sep : ascii) (n : nat) (s : string) :
  let text := JS.join (String sep "") (JS.array_slice_0 (S n) (JS.split sep s)) in
  JS.split sep text = firstn (S n) (JS.split sep s) /\
  JS.startsWith s text = true /\
  (List.length (JS.split sep s) <= S n -> text = s).
Proof.
  cbv zeta. unfold JS.array_slice_0. split; [|split].
  - apply PosixFacts.split_join.
    + destruct (JS.split sep s) eqn:E; [now apply SplitFacts.split_not_nil in E|].
      discriminate.
    + apply Forall_forall. intros p Hp.
      apply (SplitFacts.split_pieces_free sep s).
      rewrite <- (firstn_skipn (S n) (JS.split sep s)). apply in_or_app. now left.
  - rewrite <- (SplitFacts.join_split sep s) at 1. apply join_firstn_prefix.
  - intros Hlen. rewrite firstn_all2 by assumption. apply SplitFacts.join_split.
Qed.

(** X7.  Where the directory holds a regular file [index.md], revision 2 reads
    it once and turns into the preview exactly its first ten lines: the text
    handed to [marked] splits at line feeds into the first ten pieces of the
    file, is the beginning of the file, and is the whole file when that has
    no more than ten lines.  The preview links to the file's path relative
    to the root. *)
Theorem index_preview_is_the_first_ten_lines (h : Host) (filePath : string)
    (indexStats : Stats) (log : list FsOp) :
  stat (fs h) (path_join (path h) filePath "index.md") = Some indexStats ->
  isFile indexStats = true ->
  let indexPath := path_join (path h) filePath "index.md" in
  let raw := readFile (fs h) indexPath in
  exists firstLines,
    Rev2.index_preview h filePath log =
      (Some ("/" ++ to_url_path (path h) (path_relative (path h) (DOCS_DIR h) indexPath),
             marked h firstLines),
       (log ++ [OpStat indexPath; OpReadFile indexPath])%list) /\
    JS.split Rev2.newline firstLines = firstn 10 (JS.split Rev2.newline raw) /\
    JS.startsWith raw firstLines = true /\
    (List.length (JS.split Rev2.newline raw) <= 10 -> firstLines = raw).
Proof.
  intros Hstat Hfile. cbv zeta.
  exists (JS.join (String Rev2.newline "")
            (JS.array_slice_0 10
               (JS.split Rev2.newline
                  (readFile (fs h) (path_join (path h) filePath "index.md"))))).
  split.
  - unfold Rev2.index_preview, getStats, fs_readFile, bind, access, ret.
    rewrite Hstat, Hfile. now rewrite <- app_assoc.
  - apply (first_lines_spec Rev2.newline 9).
Qed.

Lemma index_preview_example :
  exists firstLines,
    Rev2.index_preview ExampleSite.host "/srv/docs/guide" [] =
      (Some ("/" ++ "guide/index.md", marked ExampleSite.host firstLines),
       [OpStat "/srv/docs/guide/index.md"; OpReadFile "/srv/docs/guide/index.md"]) /\
    JS.split Rev2.newline firstLines
      = ["# Guide"; "2"; "3"; "4"; "5"; "6"; "7"; "8"; "9"; "10"] /\
    JS.startsWith ExampleSite.index_md firstLines = true /\
    (List.length (JS.split Rev2.newline ExampleSite.index_md) <= 10 ->
     firstLines = ExampleSite.index_md).
Proof.
  exact (index_preview_is_the_first_ten_lines ExampleSite.host "/srv/docs/guide"
           Example.regular_file [] eq_refl eq_refl).
Defined.

(** Without a regular file [index.md] there is no preview and nothing is
    read. *)
Lemma index_preview_absent (h : Host) (filePath : string) (log : list FsOp) :
  (forall st, stat (fs h) (path_join (path h) filePath "index.md") = Some st ->
              isFile st = false) ->
  Rev2.index_preview h filePath log =
    (None, (log ++ [OpStat (path_join (path h) filePath "index.md")])%list).
Proof.
  intros H. unfold Rev2.index_preview, getStats, bind, access, ret.
  destruct (stat (fs h) (path_join (path h) filePath "index.md")) as [st|] eqn:E;
    [|reflexivity].
  now rewrite (H st eq_refl).
Qed.

(** * View identifiers and back links on a POSIX host *)

Lemma proper_piece_not_empty : ~ proper_piece "".
Proof. intros [H _]. now apply H. Qed.

(** Proper pieces joined with slashes neither begin nor end with one. *)
Lemma proper_join_shape (qs : list string) :
  Forall proper_piece qs ->
  JS.startsWith (JS.join "/" qs) "/" = false /\
  JS.endsWith (JS.join "/" qs) "/" = false.
Proof.
  intros Hqs. destruct qs as [|q qs]; [split; reflexivity|].
  assert (Hsplit : JS.split "/" (JS.join "/" (q :: qs)) = q :: qs).
  { apply PosixFacts.split_join; [discriminate|].
    eapply Forall_impl; [|exact Hqs]. intros a Ha. apply Ha. }
  split; apply not_true_is_false; intros H.
  - apply JSFacts.startsWith_iff in H. destruct H as [r Hr].
    rewrite Hr in Hsplit. cbn [append JS.split] in Hsplit.
    rewrite Ascii.eqb_refl in Hsplit. injection Hsplit as <- _.
    inversion Hqs as [|? ? Hq _]. now apply proper_piece_not_empty.
  - apply JSFacts.endsWith_iff in H. destruct H as [a Ha].
    rewrite Ha in Hsplit.
    rewrite (ContainmentFacts.split_append "/"%char "" a) in Hsplit.
    rewrite <- Hsplit in Hqs. apply Forall_app in Hqs. destruct Hqs as [_ Hlast].
    inversion Hlast as [|? ? Hq _]. now apply proper_piece_not_empty.
Qed.

Section PosixViews.

Variable h : Host.
Variable rs : list string.
Hypothesis posix_host : path h = Posix.module.
Hypothesis root : DOCS_DIR h = absolute rs.
Hypothesis root_proper : Forall proper_piece rs.
Hypothesis root_exists : stat (fs h) (DOCS_DIR h) <> None.

(** Below the root, the path relative to the root is the rest of the
    pieces. *)
Lemma relative_url_below_root (filePath : string) :
  below_root rs filePath ->
  exists qs, Forall proper_piece qs /\ relative_url h filePath = JS.join "/" qs.
Proof.
  intros Hfp. destruct (ContainmentFacts.below_root_pieces rs filePath root_proper Hfp)
    as [qs [Hqs Hps]].
  exists qs. split; [assumption|].
  unfold relative_url. rewrite posix_host, root. cbn [path_relative Posix.module].
  unfold Posix.relative. rewrite Hps.
  rewrite (PosixFacts.resolved_pieces_absolute rs root_proper).
  rewrite PosixFacts.drop_common_append. cbn [map app].
  now apply to_url_path_forward_slashes.
Qed.

Let proper_view (r : Response) : Prop :=
  forall page, r = Send page ->
    exists qs, Forall proper_piece qs /\ currentViewPath page = JS.join "/" qs.

Lemma serve_file_view (filePath : string) :
  below_root rs filePath ->
  preserves (inside_root rs) proper_view (serve_file h filePath).
Proof.
  intros Hfp. unfold serve_file. destruct (JS.endsWith filePath ".md").
  - eapply preserves_bind;
      [apply (fs_readFile_inside h rs); exact Hfp|].
    intros content _. apply preserves_ret. intros page E. injection E as <-.
    now apply relative_url_below_root.
  - destruct (mime_lookup h filePath) as [mimeType|];
      [|apply preserves_ret; intros page E; discriminate].
    destruct (JS.truthy mimeType && JS.startsWith mimeType "image/");
      [|apply preserves_ret; intros page E; discriminate].
    unfold res_sendFile.
    eapply preserves_bind; [apply preserves_access; exact Hfp|].
    intros _ _. apply preserves_ret. intros page E. discriminate.
Qed.

Lemma list_directory_view (requestPath filePath : string) :
  below_root rs filePath ->
  preserves (inside_root rs) proper_view (Rev1.list_directory h requestPath filePath) /\
  preserves (inside_root rs) proper_view (Rev2.list_directory h requestPath filePath).
Proof.
  intros Hfp. split; intros log Hlog.
  - rewrite Rev1_list_directory_sends. cbn [fst snd]. split.
    + intros page E. injection E as <-. now apply relative_url_below_root.
    + apply (Rev1_list_directory_inside h rs requestPath filePath Hfp log) in Hlog.
      rewrite Rev1_list_directory_sends in Hlog. apply Hlog.
  - split.
    + rewrite Rev2_list_directory_sends. cbn [fst].
      intros page E. injection E as <-. now apply relative_url_below_root.
    + now apply (Rev2_list_directory_inside h rs posix_host root_proper
                   requestPath filePath Hfp log).
Qed.

Lemma app_get_view list_directory (requestPath : string) :
  (forall filePath, below_root rs filePath ->
     preserves (inside_root rs) proper_view (list_directory requestPath filePath)) ->
  preserves (inside_root rs) proper_view (app_get h list_directory requestPath).
Proof.
  intros Hlist. unfold app_get.
  destruct (JS.includes requestPath "..") eqn:Hdots;
    [apply preserves_ret; intros page E; discriminate|].
  rewrite posix_host, root. cbn [path_join Posix.module].
  assert (Hfp : below_root rs (Posix.join (absolute rs) requestPath)).
  { apply ContainmentFacts.join_below_root; [assumption| |].
    - exists []. split; [constructor | left; now rewrite app_nil_r].
    - now apply ContainmentFacts.pieces_without_dotdot. }
  eapply preserves_bind;
    [apply (getStats_inside h rs); exact Hfp|].
  intros stats ->.
  eapply preserves_bind;
    [apply (md_fallback_inside h rs root root_exists); exact Hfp|].
  intros [filePath stats] Hbelow. cbn [fst snd] in *.
  unfold respond. destruct stats as [st|];
    [|apply preserves_ret; intros page E; discriminate].
  destruct (isDirectory st); [now apply Hlist|].
  destruct (isFile st); [now apply serve_file_view|].
  apply preserves_ret; intros page E; discriminate.
Qed.

(** X12.  On a POSIX host whose root is still on the disk, the view identifier
    that the handler writes into a page it sends is made of proper pieces
    joined by slashes: it has no slash in front and none behind, and it is
    empty for the root. *)
Theorem view_identifier_is_normal (requestPath : string) (page : Page) :
  fst (run (Rev1.handler h requestPath)) = Send page \/
  fst (run (Rev2.handler h requestPath)) = Send page ->
  (exists qs, Forall proper_piece qs /\ currentViewPath page = JS.join "/" qs) /\
  JS.startsWith (currentViewPath page) "/" = false /\
  JS.endsWith (currentViewPath page) "/" = false.
Proof.
  intros Hsend.
  assert (Hview : exists qs, Forall proper_piece qs /\ currentViewPath page = JS.join "/" qs).
  { destruct Hsend as [E | E].
    - refine (proj1 (app_get_view (Rev1.list_directory h) requestPath _ [] _) page E);
        [|constructor].
      intros filePath Hfp. now apply list_directory_view.
    - refine (proj1 (app_get_view (Rev2.list_directory h) requestPath _ [] _) page E);
        [|constructor].
      intros filePath Hfp. now apply list_directory_view. }
  split; [exact Hview|]. destruct Hview as [qs [Hqs E]].
  destruct (proper_join_shape qs Hqs) as [Hstart Hend]. rewrite <- E in Hstart, Hend.
  split; assumption.
Qed.

End PosixViews.

Lemma srv_docs_proper : Forall proper_piece ["srv"; "docs"].
Proof. repeat constructor; try discriminate; cbn; intuition discriminate. Qed.

Lemma view_identifier_example :
  (exists qs, Forall proper_piece qs /\ "notes.md" = JS.join "/" qs) /\
  JS.startsWith "notes.md" "/" = false /\
  JS.endsWith "notes.md" "/" = false.
Proof.
  apply (view_identifier_is_normal Example.host ["srv"; "docs"]
           eq_refl eq_refl srv_docs_proper
           (fun E : stat (fs Example.host) (DOCS_DIR Example.host) = None =>
              eq_ind (Some Example.directory)
                (fun o => match o with Some _ => True | None => False end) I None E)
           "/notes"
           {| content := Document "<article># Notes</article>";
              title := "notes.md"; backLink := "/"; currentViewPath := "notes.md" |}).
  right. reflexivity.
Defined.

(** The disk accesses of a request, on the example host. *)
Lemma handler_stays_below_root_example :
  Forall (inside_root ["srv"; "docs"])
    (snd (run (Rev1.handler ExampleSite.host "/guide/./"))) /\
  Forall (inside_root ["srv"; "docs"])
    (snd (run (Rev2.handler ExampleSite.host "/guide/./"))).
Proof.
  apply (handler_stays_below_root ExampleSite.host ["srv"; "docs"]
           eq_refl eq_refl srv_docs_proper).
  discriminate.
Defined.

(** X5.  The back link of a page goes to the directory that holds what the page
    shows: for a view identifier of proper pieces it is the directory of all
    pieces but the last, between slashes, and [/] when there is one piece. *)
Theorem backLink_is_the_parent (ps : list string) (x : string) :
  Forall proper_piece (ps ++ [x]) ->
  generateHtml_backLink (JS.join "/" (ps ++ [x])) =
  match ps with
  | [] => "/"
  | _ :: _ => absolute ps ++ "/"
  end.
Proof.
  intros Hps.
  assert (Hsplit : JS.split "/" (JS.join "/" (ps ++ [x])) = (ps ++ [x])%list).
  { apply PosixFacts.split_join; [now destruct ps|].
    eapply Forall_impl; [|exact Hps]. intros a Ha. apply Ha. }
  destruct (proper_join_shape _ Hps) as [_ Hend].
  unfold generateHtml_backLink. rewrite Hend, Hsplit.
  assert (Htruthy : JS.truthy (JS.join "/" (ps ++ [x])) = true).
  { unfold JS.truthy. apply negb_true_iff, String.eqb_neq. intros E.
    rewrite E in Hsplit. cbn in Hsplit. destruct ps as [|p [|q ps]]; try discriminate.
    injection Hsplit as <-. apply Forall_inv in Hps. now apply proper_piece_not_empty. }
  assert (Hdot : String.eqb (JS.join "/" (ps ++ [x])) "." = false).
  { apply String.eqb_neq. intros E. rewrite E in Hsplit. cbn in Hsplit.
    destruct ps as [|p [|q ps]]; try discriminate.
    injection Hsplit as <-. apply Forall_inv in Hps.
    destruct Hps as [_ [H _]]. now apply H. }
  assert (Hslash : String.eqb (JS.join "/" (ps ++ [x])) "/" = false).
  { apply String.eqb_neq. intros E. rewrite E in Hend. discriminate. }
  rewrite Htruthy, Hdot, Hslash. cbn [negb andb].
  unfold JS.array_slice_0_m1. rewrite removelast_last, length_app. cbn [List.length].
  destruct ps as [|p ps]; [reflexivity|].
  cbn [List.length]. replace (Nat.ltb 1 (S (List.length ps) + 1)) with true
    by (symmetry; apply Nat.ltb_lt; lia).
  reflexivity.
Qed.

Lemma backLink_example :
  generateHtml_backLink "guide/sub/deep.md" = "/guide/sub/".
Proof.
  apply (backLink_is_the_parent ["guide"; "sub"] "deep.md").
  repeat constructor; try discriminate; cbn; intuition discriminate.
Defined.

(** * From the watcher to the page *)

Module JSONFacts.
Import JSONParse.

Lemma string_body_quote_char (c : ascii) (t : string) :
  string_body (JSON.quote_char c ++ t) = push c (string_body t).
Proof.
  destruct c as [[] [] [] [] [] [] [] []]; reflexivity.
Qed.

Lemma string_body_quote_body : forall s rest,
  string_body (JSON.quote_body s ++ String JSON.dquote rest) = Some (s, rest).
Proof.
  induction s as [|c s IH]; intros rest; [reflexivity|].
  cbn [JSON.quote_body]. rewrite JSFacts.append_assoc, string_body_quote_char.
  now rewrite IH.
Qed.

Lemma string_token_quote (s rest : string) :
  string_token (JSON.quote s ++ rest) = Some (s, rest).
Proof.
  unfold JSON.quote. cbn [append string_token]. rewrite Ascii.eqb_refl.
  rewrite JSFacts.append_assoc. apply string_body_quote_body.
Qed.

Lemma property_round_trip (kv : string * string) (rest : string) :
  property (JSON.property kv ++ rest) = Some (kv, rest).
Proof.
  destruct kv as [k v]. unfold JSON.property, property. cbn [fst snd].
  rewrite !JSFacts.append_assoc, string_token_quote. cbn [append].
  rewrite Ascii.eqb_refl. now rewrite string_token_quote.
Qed.

Lemma properties_round_trip : forall o fuel rest,
  o <> [] -> List.length o <= fuel ->
  properties fuel (JS.join "," (map JSON.property o) ++ String "}" rest) = Some (o, rest).
Proof.
  induction o as [|kv o IH]; intros fuel rest Hne Hfuel; [contradiction|].
  destruct fuel as [|fuel]; [cbn in Hfuel; lia|]. cbn [List.length] in Hfuel.
  destruct o as [|kv' o].
  - cbn [map JS.join properties]. rewrite property_round_trip.
    now rewrite Ascii.eqb_refl.
  - change (JS.join "," (map JSON.property (kv :: kv' :: o)))
      with (JSON.property kv ++ "," ++ JS.join "," (map JSON.property (kv' :: o))).
    cbn [properties]. rewrite !JSFacts.append_assoc, property_round_trip.
    cbn [append]. cbn [Ascii.eqb Bool.eqb andb].
    rewrite IH; [reflexivity | discriminate | lia].
Qed.

Lemma length_append (a b : string) :
  String.length (a ++ b) = String.length a + String.length b.
Proof. induction a as [|c a IH]; cbn; [reflexivity | now rewrite IH]. Qed.

Lemma join_properties_length : forall o,
  List.length o <= String.length (JS.join "," (map JSON.property o)).
Proof.
  induction o as [|kv o IH]; [cbn; lia|].
  destruct o as [|kv' o].
  - cbn [map JS.join List.length]. unfold JSON.property, JSON.quote. cbn. lia.
  - change (JS.join "," (map JSON.property (kv :: kv' :: o)))
      with (JSON.property kv ++ "," ++ JS.join "," (map JSON.property (kv' :: o))).
    rewrite !length_append. cbn [List.length] in *.
    unfold JSON.property at 1, JSON.quote. cbn [append String.length]. lia.
Qed.


End JSONFacts.

(** X15.  What [JSON.stringify] writes for a flat object of strings with distinct
    keys, [JSON.parse] reads back as that object, whatever characters the
    keys and values hold. *)
Theorem parse_stringify (o : JSON.object) :
  JSONParse.distinct (map fst o) = true ->
  JSONParse.parse (JSON.stringify o) = Some o.
Proof.
  intros Hkeys. unfold JSON.stringify. destruct o as [|kv o]; [reflexivity|].
  cbn [append JSONParse.parse]. cbn [Ascii.eqb Bool.eqb andb].
  assert (Hne : String.eqb (JS.join "," (map JSON.property (kv :: o)) ++ "}") "}" = false).
  { destruct o; cbn [map JS.join]; unfold JSON.property, JSON.quote; reflexivity. }
  rewrite Hne.
  rewrite JSONFacts.properties_round_trip; [now rewrite Hkeys | discriminate |].
  rewrite JSONFacts.length_append. pose proof (JSONFacts.join_properties_length (kv :: o)). lia.
Qed.

Lemma parse_stringify_example :
  JSONParse.parse
    (JSON.stringify
       (update_message
          ("notes " ++ String JSON.dquote ("draft" ++ String JSON.dquote ".md"))
          "change"))
  = Some (update_message
            ("notes " ++ String JSON.dquote ("draft" ++ String JSON.dquote ".md"))
            "change").
Proof.
  apply (parse_stringify
           (update_message
              ("notes " ++ String JSON.dquote ("draft" ++ String JSON.dquote ".md"))
              "change")).
  reflexivity.
Defined.



(** * The reload decision, by the shape of the changed path *)







(** * What a request costs *)

Lemma app_get_runs (h : Host) list_directory (requestPath : string) :
  JS.includes requestPath ".." = false ->
  app_get h list_directory requestPath [] =
  match resolve h requestPath with
  | Some (filePath, stats) =>
      respond h list_directory requestPath filePath (Some stats)
        (resolve_log h requestPath)
  | None => (Status 404 "Not Found", resolve_log h requestPath)
  end.
Proof.
  intros Hdots. unfold app_get, resolve, resolve_log. rewrite Hdots. cbv zeta.
  unfold bind at 1. unfold getStats at 1, bind, access, ret. cbn [app].
  destruct (stat (fs h) (path_join (path h) (DOCS_DIR h) requestPath)) as [st|] eqn:E.
  - reflexivity.
  - cbn [md_fallback].
    destruct (JS.endsWith (path_join (path h) (DOCS_DIR h) requestPath) ".md");
      cbn [negb]; [reflexivity|].
    unfold getStats, bind, access, ret. cbn [app].
    now destruct (stat (fs h) (path_join (path h) (DOCS_DIR h) requestPath ++ ".md")).
Qed.

Lemma resolve_log_cost (h : Host) (requestPath : string) :
  List.length (resolve_log h requestPath) <= 2 /\
  forall p, ~ In (OpReadFile p) (resolve_log h requestPath).
Proof.
  unfold resolve_log. cbv zeta.
  destruct (stat (fs h) (path_join (path h) (DOCS_DIR h) requestPath));
    [|destruct (JS.endsWith (path_join (path h) (DOCS_DIR h) requestPath) ".md")];
    cbn; split; try lia; intros p H; intuition discriminate.
Qed.

Ltac split_cases :=
  repeat match goal with
         | |- context [if ?b then _ else _] => destruct b
         | |- context [match ?x with Some _ => _ | None => _ end] => destruct x
         end.

Lemma respond_cost (h : Host) (requestPath filePath : string) (stats : Stats)
    (log : list FsOp) :
  List.length (snd (respond h (Rev1.list_directory h) requestPath filePath (Some stats) log))
    <= List.length log + 1 /\
  List.length (snd (respond h (Rev2.list_directory h) requestPath filePath (Some stats) log))
    <= List.length log + 3 /\
  (forall p,
     In (OpReadFile p)
       (snd (respond h (Rev2.list_directory h) requestPath filePath (Some stats) log)) ->
     In (OpReadFile p) log \/
     exists page,
       fst (respond h (Rev2.list_directory h) requestPath filePath (Some stats) log)
       = Send page).
Proof.
  unfold respond.
  destruct (isDirectory stats).
  - rewrite Rev1_list_directory_sends, Rev2_list_directory_sends. cbn [fst snd].
    split; [rewrite length_app; cbn; lia|].
    split; [|intros p _; right; now eexists].
    unfold Rev2.index_preview, fs_readFile, getStats, bind, access, ret.
    split_cases; cbn [snd]; rewrite ?length_app; cbn; lia.
  - destruct (isFile stats); [|cbn; repeat split; try lia; auto].
    unfold serve_file, fs_readFile, res_sendFile, bind, access, ret.
    split_cases; cbn [fst snd]; rewrite ?length_app; cbn [List.length];
      (split; [lia|]; split; [lia|]);
      intros p Hp; try (right; now eexists);
      try (left; exact Hp);
      apply in_app_iff in Hp; destruct Hp as [Hp | [Hp | []]];
        try discriminate; now left.
Qed.

(** X14.  A request costs at most three disk accesses in revision 1 and five in
    revision 2, and the content of a file is read only for a page that is
    then sent. *)
Theorem request_cost (h : Host) (requestPath : string) :
  List.length (snd (run (Rev1.handler h requestPath))) <= 3 /\
  List.length (snd (run (Rev2.handler h requestPath))) <= 5 /\
  (forall p, In (OpReadFile p) (snd (run (Rev2.handler h requestPath))) ->
     exists page, fst (run (Rev2.handler h requestPath)) = Send page).
Proof.
  unfold run, Rev1.handler, Rev2.handler.
  destruct (JS.includes requestPath "..") eqn:Hdots.
  { unfold app_get. rewrite Hdots. cbn. repeat split; try lia; try (intros p []). }
  rewrite !app_get_runs by assumption.
  destruct (resolve_log_cost h requestPath) as [Hlen Hread].
  destruct (resolve h requestPath) as [[filePath stats]|].
  - destruct (respond_cost h requestPath filePath stats (resolve_log h requestPath))
      as [H1 [H2 H3]].
    split; [lia|]. split; [lia|].
    intros p Hp. destruct (H3 p Hp) as [Hin | Hsend]; [|exact Hsend].
    now apply Hread in Hin.
  - cbn [fst snd]. split; [lia|]. split; [lia|].
    intros p Hp. now apply Hread in Hp.
Qed.

(** * The directory walker *)

Lemma concat_results_some : forall results files,
  concat_results results = Some files ->
  (forall r, In r results -> exists l, r = Some l) /\
  (forall p, In p files <-> exists l, In (Some l) results /\ In p l).
Proof.
  induction results as [|r results IH]; intros files H.
  - injection H as <-. split; [intros r []|].
    intros p. split; [intros [] | intros [l [[] _]]].
  - cbn [concat_results] in H. destruct r as [l|]; [|discriminate].
    destruct (concat_results results) as [more|] eqn:E; [|discriminate].
    injection H as <-. destruct (IH more eq_refl) as [Hall Hmem]. split.
    + intros r [<- | Hr]; [now exists l | now apply Hall].
    + intros p. rewrite in_app_iff, Hmem. split.
      * intros [Hp | [l' [Hl' Hp]]]; [exists l | exists l']; split; auto;
          [now left | now right].
      * intros [l' [[E' | Hl'] Hp]]; [injection E' as <-; now left | right].
        now exists l'.
Qed.

Lemma concat_results_all : forall results,
  (forall r, In r results -> exists l, r = Some l) ->
  exists files, concat_results results = Some files.
Proof.
  induction results as [|r results IH]; intros H; [now exists []|].
  destruct (H r (or_introl eq_refl)) as [l ->].
  destruct IH as [more E]; [intros r Hr; apply H; now right|].
  cbn [concat_results]. rewrite E. now eexists.
Qed.

(** Where [dir] is not on the disk or is no directory there, nothing comes
    back, whatever the fuel: [readdir] rejects. *)
Lemma getFiles_rejects (resolve : string -> string -> string) (disk : FileSystem)
    (fuel : nat) (dir : string) :
  is_directory disk dir = false -> getFiles resolve disk fuel dir = None.
Proof.
  intros H. destruct fuel as [|fuel]; [reflexivity|].
  cbn [getFiles]. unfold is_directory in H.
  destruct (stat disk dir) as [st|]; [|reflexivity]. now rewrite H.
Qed.

Lemma getFiles_step (resolve : string -> string -> string) (disk : FileSystem)
    (fuel : nat) (dir : string) :
  is_directory disk dir = true ->
  getFiles resolve disk (S fuel) dir =
  concat_results
    (map (fun dirent =>
            if dirent_isDirectory dirent
            then getFiles resolve disk fuel (resolve dir (name dirent))
            else Some [resolve dir (name dirent)])
         (readdir disk dir)).
Proof.
  intros H. cbn [getFiles]. unfold is_directory in H.
  destruct (stat disk dir) as [st|]; [|discriminate]. now rewrite H.
Qed.

Lemma getFiles_some_is_directory (resolve : string -> string -> string)
    (disk : FileSystem) (fuel : nat) (dir : string) (files : list string) :
  getFiles resolve disk fuel dir = Some files -> is_directory disk dir = true.
Proof.
  intros H. destruct (is_directory disk dir) eqn:E; [reflexivity|].
  now rewrite (getFiles_rejects resolve disk fuel dir E) in H.
Qed.

(** X19.  Where [dir] is a directory of the disk, every entry below it that is
    marked as a directory is one, and these are nested at most [depth] deep,
    [getFiles] comes back with a list. *)
Theorem getFiles_returns (resolve : string -> string -> string) (disk : FileSystem)
    (depth : nat) (dir : string) :
  directories_within resolve disk depth dir ->
  exists files, getFiles resolve disk (S depth) dir = Some files.
Proof.
  revert dir. induction depth as [|depth IH]; intros dir [Hdirectory Hnested];
    rewrite (getFiles_step resolve disk _ dir Hdirectory);
    apply concat_results_all; intros r Hr;
    apply in_map_iff in Hr; destruct Hr as [dirent [<- Hin]];
    destruct (dirent_isDirectory dirent) eqn:Hdir; try (now eexists).
  - destruct (Hnested dirent Hin Hdir).
  - apply IH. exact (Hnested dirent Hin Hdir).
Qed.

(** X20.  What [getFiles] returns holds exactly the entries below [dir] that are
    no directories: each of them, and no directory. *)
Theorem getFiles_lists_the_files (resolve : string -> string -> string)
    (disk : FileSystem) (fuel : nat) (dir : string) (files : list string) :
  getFiles resolve disk fuel dir = Some files ->
  forall p, In p files <-> file_below resolve disk dir p.
Proof.
  revert dir files. induction fuel as [|fuel IH]; intros dir files H; [discriminate|].
  rewrite (getFiles_step resolve disk fuel dir
             (getFiles_some_is_directory resolve disk (S fuel) dir files H)) in H.
  apply concat_results_some in H. destruct H as [Hall Hmem].
  intros p. rewrite Hmem. split.
  - intros [l [Hl Hp]]. apply in_map_iff in Hl. destruct Hl as [dirent [E Hin]].
    destruct (dirent_isDirectory dirent) eqn:Hdir.
    + apply (file_deeper resolve disk dir dirent p Hin Hdir).
      now apply (IH _ l E).
    + injection E as <-. destruct Hp as [<- | []].
      now apply file_here.
  - intros Hp. destruct Hp as [dir dirent Hin Hdir | dir dirent p Hin Hdir Hp].
    + exists [resolve dir (name dirent)]. split; [|now left].
      apply in_map_iff. exists dirent. split; [now rewrite Hdir | assumption].
    + destruct (Hall (getFiles resolve disk fuel (resolve dir (name dirent)))) as [l El].
      { apply in_map_iff. exists dirent. split; [now rewrite Hdir | assumption]. }
      exists l. split.
      * apply in_map_iff. exists dirent. split; [now rewrite Hdir | assumption].
      * now apply (IH _ l El).
Qed.

Lemma getFiles_returns_example :
  exists files, getFiles Posix.join ExampleSite.disk 2 "/srv/docs" = Some files.
Proof.
  apply (getFiles_returns Posix.join ExampleSite.disk 1 "/srv/docs").
  split; [reflexivity|].
  intros dirent Hin Hdir. cbn in Hin.
  destruct Hin as [<- | [<- | [<- | [<- | []]]]]; try discriminate Hdir.
  split; [reflexivity|].
  intros dirent Hin Hdir'. cbn in Hin.
  destruct Hin as [<- | [<- | []]]; discriminate Hdir'.
Defined.

(** On the same disk a path that is not there and a regular file give
    nothing. *)
Lemma getFiles_rejects_example :
  getFiles Posix.join ExampleSite.disk 2 "/srv/docs/nope" = None /\
  getFiles Posix.join ExampleSite.disk 2 "/srv/docs/logo.png" = None.
Proof. split; reflexivity. Qed.

Lemma getFiles_lists_the_files_example :
  In "/srv/docs/guide/intro.md"
     ["/srv/docs/logo.png"; "/srv/docs/data.txt"; "/srv/docs/ctl";
      "/srv/docs/guide/index.md"; "/srv/docs/guide/intro.md"] <->
  file_below Posix.join ExampleSite.disk "/srv/docs" "/srv/docs/guide/intro.md".
Proof.
  apply (getFiles_lists_the_files Posix.join ExampleSite.disk 2 "/srv/docs").
  reflexivity.
Defined.
